(** * Fluid: the AlluxioRuntime controller entry point, its reconciler and
    the collaborators it configures.

    Shallow embedding of
    - [vendor/sigs.k8s.io/controller-runtime/pkg/client/config/config.go]
      ([RegisterFlags], [loadConfig], [GetConfigWithContext], [GetConfigOrDie]),
    - [cmd/alluxio/app/alluxio.go] ([init], [handle]),
    - [pkg/controllers/v1alpha1/alluxio] ([RuntimeReconciler], [Reconcile]),
    - [cmd/dataset/app/dataset.go] ([handle], [NewCacheOptions]) and the
      entry point of the CSI driver ([handle]),
    with the port allocator, the workqueue rate limiter and the engine-kind
    inference, whose sources are in other packages, modelled after their
    specification. *)

From Stdlib Require Import ZArith List Bool Lia Ascii.
From Stdlib Require Import Floats.SpecFloat.
From stdpp Require Import base gmap strings list fin_maps.

Open Scope string_scope.
Open Scope Z_scope.
Open Scope list_scope.

(** ** Go values shared by all packages *)

(** [k8s.io/apimachinery/pkg/api/errors]: the reason carried by a status error. *)
Inductive StatusReason := StatusReasonNotFound | StatusReasonConflict | StatusReasonTimeout
                        | StatusReasonUnknown.

(** A Go [error] value: a plain message, an API status error, or an error
    wrapped with a message ([errors.Wrap], [fmt.Errorf] with [%w]). *)
Inductive error :=
| errorString (msg : string)
| StatusError (reason : StatusReason) (msg : string)
| withMessage (cause : error) (msg : string).

(** A Go pair [(T, error)] of a call that either yields a value or fails. *)
Inductive result (A : Type) :=
| Ok (a : A)
| Err (e : error).
Arguments Ok {A} a.
Arguments Err {A} e.

(** The call failed. *)
Definition failed {A} (r : result A) : Prop := ∃ err, r = Err err.

(** Go's [float32], as an IEEE 754 datum. *)
Definition float32 := spec_float.

(** The constant [0.0]. *)
Definition f32_zero : float32 := S754_zero false.

(** The constant [20.0] in binary32: mantissa [0xA00000], exponent [-19]. *)
Definition f32_20 : float32 := S754_finite false 10485760 (-19).

(** [time.Duration]: a number of nanoseconds. *)
Definition Duration := Z.

Definition Millisecond : Duration := 1000000.
Definition Second : Duration := 1000 * Millisecond.

(** ** Processes: calls made in order, until the process exits

    A computation of the entry point makes calls on its collaborators, which
    are recorded in order, and either carries on with a value or ends the
    process with an exit status ([os.Exit]). *)

Inductive Outcome (A : Type) :=
| Continue (a : A)
| Exit (code : Z).
Arguments Continue {A} a.
Arguments Exit {A} code.

Definition Proc (E A : Type) : Type := list E * Outcome A.

#[global] Instance Proc_ret {E} : MRet (Proc E) := λ A a, ([], Continue a).

#[global] Instance Proc_bind {E} : MBind (Proc E) := λ A B f m,
  match m with
  | (t, Continue a) => let '(t', o) := f a in (t ++ t', o)
  | (t, Exit code) => (t, Exit code)
  end.

Definition emit {E} (e : E) : Proc E unit := ([e], Continue tt).

Definition emitAll {E} (es : list E) : Proc E unit := (es, Continue tt).

Definition os_Exit {E A} (code : Z) : Proc E A := ([], Exit code).

(** ** controller-runtime: pkg/client/config *)

Module config.

(** [rest.Config], with the fields this package reads or writes and the
    server address standing for the ones it only carries along. *)
Record Config := mkConfig {
  Host : string;
  QPS : float32;
  Burst : Z
}.

(** [clientcmd.ClientConfigLoadingRules]. *)
Record ClientConfigLoadingRules := mkRules {
  ExplicitPath : string;
  Precedence : list string
}.

(** [user.User]. *)
Record User := mkUser { HomeDir : string }.

Definition RecommendedConfigPathEnvVar : string := "KUBECONFIG".
Definition RecommendedHomeDir : string := ".kube".
Definition RecommendedFileName : string := "config".

(** [strings.Split(s, "/")]: the text between the separators. *)
Fixpoint splitSlash (s : string) : list string :=
  match s with
  | EmptyString => [""]
  | String c s' =>
      if Ascii.eqb c "/"%char then "" :: splitSlash s'
      else match splitSlash s' with
           | [] => [String c ""]
           | x :: xs => String c x :: xs
           end
  end.

(** One element of the path met by [filepath.Clean], with the elements
    written so far, last first: an empty element and [.] are dropped, [..]
    removes the last real element, is dropped at the root, and is kept
    where a relative path has nothing left to remove. *)
Definition cleanStep (rooted : bool) (out : list string) (c : string) : list string :=
  if decide (c = "" ∨ c = ".") then out
  else if decide (c = "..") then
    match out with
    | top :: rest => if decide (top = "..") then ".." :: out else rest
    | [] => if rooted then [] else [".."]
    end
  else c :: out.

Definition isRooted (path : string) : bool :=
  match path with
  | String c _ => Ascii.eqb c "/"%char
  | EmptyString => false
  end.

(** [filepath.Clean] on a path with [/] as separator. *)
Definition Clean (path : string) : string :=
  let rooted := isRooted path in
  let out := foldl (cleanStep rooted) [] (splitSlash path) in
  let cleaned := (if rooted then "/" else "") +:+ String.concat "/" (reverse out) in
  if decide (cleaned = "") then "." else cleaned.

(** [filepath.Join]: the elements from the first non-empty one on, joined
    with [/] and cleaned; the empty string when all are empty. *)
Fixpoint filepath_Join (elem : list string) : string :=
  match elem with
  | [] => ""
  | e :: rest => if decide (e = "") then filepath_Join rest else Clean (String.concat "/" elem)
  end.

(** [filepath.Join(a, b, c)]. *)
Definition filepath_Join3 (a b c : string) : string := filepath_Join [a; b; c].

(** A path element that [filepath.Clean] keeps as it is: not empty, not [.]
    nor [..], and without separator. *)
Fixpoint noSlash (s : string) : bool :=
  match s with
  | EmptyString => true
  | String c s' => negb (Ascii.eqb c "/"%char) && noSlash s'
  end.

Definition plainElement (c : string) : Prop :=
  c ≠ "" ∧ c ≠ "." ∧ c ≠ ".." ∧ noSlash c = true.

(** What [loadConfig] reads from the process and from client-go. *)
Record Env := mkEnv {
  (** the package variable bound to the [--kubeconfig] flag *)
  kubeconfig : string;
  (** [os.LookupEnv] *)
  LookupEnv : string -> option string;
  (** [rest.InClusterConfig], through the variable [loadInClusterConfig] *)
  loadInClusterConfig : result Config;
  (** [user.Current] *)
  user_Current : result User;
  (** [clientcmd.NewDefaultClientConfigLoadingRules] *)
  NewDefaultClientConfigLoadingRules : ClientConfigLoadingRules;
  (** [clientcmd.NewNonInteractiveDeferredLoadingClientConfig(loader,
      overrides).ClientConfig()], by server URL, rules and context *)
  ClientConfig : string -> ClientConfigLoadingRules -> string -> result Config
}.

(** [os.Getenv]: the empty string when the variable is unset. *)
Definition Getenv (env : Env) (key : string) : string :=
  match LookupEnv env key with
  | Some v => v
  | None => ""
  end.

Definition loadConfigWithContext (env : Env) (apiServerURL : string)
    (loader : ClientConfigLoadingRules) (context : string) : result Config :=
  ClientConfig env apiServerURL loader context.

(** [loadConfig], as to its result; the log call it defers is
    [loadConfigLog] below. *)
Definition loadConfig (env : Env) (context : string) : result Config :=
  if (0 <? Z.of_nat (String.length (kubeconfig env)))%Z then
    loadConfigWithContext env ""
      {| ExplicitPath := kubeconfig env; Precedence := [] |} context
  else
    let kubeconfigPath := Getenv env RecommendedConfigPathEnvVar in
    let tryDefault :=
      let loadingRules := NewDefaultClientConfigLoadingRules env in
      match LookupEnv env "HOME" with
      | Some _ => loadConfigWithContext env "" loadingRules context
      | None =>
          match user_Current env with
          | Err err => Err (withMessage err "could not get current user")
          | Ok u =>
              loadConfigWithContext env ""
                {| ExplicitPath := ExplicitPath loadingRules;
                   Precedence := Precedence loadingRules ++
                     [filepath_Join3 (HomeDir u) RecommendedHomeDir RecommendedFileName] |}
                context
          end
      end in
    if (Z.of_nat (String.length kubeconfigPath) =? 0)%Z then
      match loadInClusterConfig env with
      | Ok c => Ok c
      | Err _ => tryDefault
      end
    else tryDefault.

(** [GetConfigWithContext]: the loaded configuration with the controller
    manager defaults applied, or the loading error and no configuration. *)
Definition GetConfigWithContext (env : Env) (context : string) : result Config :=
  match loadConfig env context with
  | Err err => Err err
  | Ok cfg =>
      let cfg := if SFeqb (QPS cfg) f32_zero
                 then {| Host := Host cfg; QPS := f32_20; Burst := Burst cfg |}
                 else cfg in
      let cfg := if (Burst cfg =? 0)%Z
                 then {| Host := Host cfg; QPS := QPS cfg; Burst := 30 |}
                 else cfg in
      Ok cfg
  end.

Definition GetConfig (env : Env) : result Config := GetConfigWithContext env "".

(** The calls [GetConfigOrDie] makes. *)
Inductive Event := LogError (err : error) (msg : string).

(** The log call of the function [loadConfig] defers: it is deferred once
    the in-cluster configuration was tried and failed to load, with no flag
    and [KUBECONFIG] unset or empty, and it logs that failure when
    [loadConfig] ends in an error. *)
Definition loadConfigLog (env : Env) (context : string) : list Event :=
  if (0 <? Z.of_nat (String.length (kubeconfig env)))%Z then []
  else if (Z.of_nat (String.length (Getenv env RecommendedConfigPathEnvVar)) =? 0)%Z then
    match loadInClusterConfig env with
    | Ok _ => []
    | Err err =>
        match loadConfig env context with
        | Ok _ => []
        | Err _ => [LogError err "unable to load in-cluster config"]
        end
    end
  else [].

(** [GetConfigOrDie]: logs and exits with status 1 when the configuration
    cannot be created; the log call of [loadConfig], made while [GetConfig]
    runs, comes first. *)
Definition GetConfigOrDie (env : Env) : Proc Event Config :=
  emitAll (loadConfigLog env "") ;;
  match GetConfig env with
  | Err err => emit (LogError err "unable to get kubeconfig") ;; os_Exit 1
  | Ok config => mret config
  end.

(** Go's [flag.FlagSet], as far as this package uses it: the flags that are
    defined, by name, each with its current value as a string. *)
Record FlagSet := mkFlagSet { formal : gmap string string }.

(** [fs.Lookup(name)]: the flag's value, or [None] for Go's [nil]. *)
Definition Lookup (fs : FlagSet) (name : string) : option string := formal fs !! name.

(** [fs.StringVar(&p, name, value, usage)]: defines the flag with its
    default value; [None] is the panic on a name that is already defined. *)
Definition StringVar (fs : FlagSet) (name value : string) : option FlagSet :=
  match formal fs !! name with
  | Some _ => None
  | None => Some {| formal := <[name := value]> (formal fs) |}
  end.

Definition KubeconfigFlagName : string := "kubeconfig".

(** What [RegisterFlags] leaves behind: the flag set it worked on, the
    package variable [kubeconfig], and whether the flag of that set writes
    to this variable when it is parsed. *)
Record Registered := mkRegistered {
  flagSet : FlagSet;
  kubeconfigVar : string;
  boundVar : bool
}.

(** [RegisterFlags]: [fs] is the set passed, [None] for [nil];
    [commandLine] is [flag.CommandLine]; [kubeconfig0] and [bound0] are the
    variable and its binding before the call. [None] is a panic. *)
Definition RegisterFlags (commandLine : FlagSet) (fs : option FlagSet)
    (kubeconfig0 : string) (bound0 : bool) : option Registered :=
  let fs := match fs with
            | None => commandLine
            | Some fs => fs
            end in
  match Lookup fs KubeconfigFlagName with
  | Some value => Some {| flagSet := fs; kubeconfigVar := value; boundVar := bound0 |}
  | None =>
      match StringVar fs KubeconfigFlagName "" with
      | Some fs' => Some {| flagSet := fs'; kubeconfigVar := ""; boundVar := true |}
      | None => None
      end
  end.

End config.

(** ** Resource identities and runtime resources (api/v1alpha1) *)

(** [types.NamespacedName]: the identity of one runtime resource. *)
Record NamespacedName := mkName { Namespace : string; Name : string }.

#[global] Instance NamespacedName_eq_dec : EqDecision NamespacedName.
Proof. solve_decision. Defined.

#[global] Instance NamespacedName_countable : Countable NamespacedName.
Proof.
  refine (inj_countable' (λ n, (Namespace n, Name n)) (λ p, mkName p.1 p.2) _).
  by intros [].
Defined.

(** Modelled from the spec: the status of a runtime resource, which is
    declared in [api/v1alpha1]. It carries "an optional enum field naming its
    bound engine kind once set" and the ports "already recorded in their
    status". *)
Record RuntimeStatus := mkStatus {
  EngineKind : option string;
  RecordedPorts : list Z
}.

(** Modelled from the spec: the [AlluxioRuntime] object of [api/v1alpha1],
    with its identity and its observed status. *)
Record AlluxioRuntime := mkRuntime {
  Key : NamespacedName;
  Status : RuntimeStatus
}.

(** ** pkg/ddc: engine-kind inference *)

Module ddc.

(** Modelled from the spec: [InferEngineImpl], called by [Reconcile] and
    defined in [pkg/ddc]. "If the resource's recorded status already names an
    engine implementation, that recorded kind is authoritative and overrides
    any default"; "absence falls back to a configured default". *)
Definition InferEngineImpl (runtimeStatus : RuntimeStatus) (defaultImpl : string) : string :=
  match EngineKind runtimeStatus with
  | Some kind => kind
  | None => defaultImpl
  end.

End ddc.

(** ** pkg/controllers: the workqueue rate limiter *)

Module controllers.

(** Modelled from the spec: the rate limiter built by
    [NewFluidControllerRateLimiter], defined in [pkg/controllers]. Its backoff
    state is "per Resource Identity, an exponential retry delay bounded by a
    configured minimum and maximum; reset to minimum on a successful
    reconciliation"; beside it there is "a token-bucket-style rate limit
    (steady rate + burst) shared across all queue insertions". An insertion
    waits until both allow it, so that its delay is the larger of the two.
    The bucket's credit is counted in billionths of a token, so that one
    nanosecond at the steady rate of [bucketQPS] tokens per second earns
    [bucketQPS] of credit; [bucketLast] is the time of the last insertion. *)
Record RateLimiter := mkRateLimiter {
  baseDelay : Duration;
  maxDelay : Duration;
  bucketQPS : Z;
  bucketBurst : Z;
  failures : gmap NamespacedName nat;
  bucketCredit : Z;
  bucketLast : Z
}.

(** A new limiter has recorded no failure and its bucket is full. *)
Definition NewFluidControllerRateLimiter (defaultSyncBackoff maxSyncBackoff : Duration)
    (qps burst : Z) : RateLimiter :=
  {| baseDelay := defaultSyncBackoff; maxDelay := maxSyncBackoff;
     bucketQPS := qps; bucketBurst := burst; failures := ∅;
     bucketCredit := burst * Second; bucketLast := 0 |}.

(** The number of failures recorded for an item. *)
Definition NumRequeues (r : RateLimiter) (item : NamespacedName) : nat :=
  default 0%nat (failures r !! item).

(** The exponential delay after [exp] earlier failures, capped at the ceiling. *)
Definition backoff (r : RateLimiter) (exp : nat) : Duration :=
  Z.min (baseDelay r * 2 ^ Z.of_nat exp) (maxDelay r).

(** The wait that stands for "never". *)
Definition InfDuration : Duration := 2 ^ 63 - 1.

(** The bucket's credit at time [now]: what it had, plus what the steady
    rate earned since the last insertion, up to the burst. *)
Definition bucketRefill (r : RateLimiter) (now : Z) : Z :=
  let elapsed := Z.max 0 (now - bucketLast r) in
  let earned := if 0 <? bucketQPS r then elapsed * bucketQPS r else 0 in
  Z.min (bucketBurst r * Second) (bucketCredit r + earned).

(** One insertion at time [now] takes one token: the wait until the bucket
    has earned it, and the credit left. *)
Definition bucketReserve (r : RateLimiter) (now : Z) : Duration * Z :=
  let credit := bucketRefill r now - Second in
  let wait := if 0 <=? credit then 0
              else if 0 <? bucketQPS r then (- credit + bucketQPS r - 1) / bucketQPS r
              else InfDuration in
  (wait, credit).

(** [When]: the delay before the retry of [item] asked for at time [now]:
    the insertion waits for the item's backoff and for the bucket; it
    records one more failure and takes one token. *)
Definition When (r : RateLimiter) (now : Z) (item : NamespacedName) : Duration * RateLimiter :=
  let exp := NumRequeues r item in
  (Z.max (backoff r exp) (bucketReserve r now).1,
   {| baseDelay := baseDelay r; maxDelay := maxDelay r;
      bucketQPS := bucketQPS r; bucketBurst := bucketBurst r;
      failures := <[item := S exp]> (failures r);
      bucketCredit := (bucketReserve r now).2; bucketLast := now |}).

(** [Forget]: a successful reconciliation clears the item's failures. *)
Definition Forget (r : RateLimiter) (item : NamespacedName) : RateLimiter :=
  {| baseDelay := baseDelay r; maxDelay := maxDelay r;
     bucketQPS := bucketQPS r; bucketBurst := bucketBurst r;
     failures := delete item (failures r);
     bucketCredit := bucketCredit r; bucketLast := bucketLast r |}.

(** What the scheduler tells the limiter about one finished reconciliation:
    a failure, with the time at which the retry is asked for, or a success. *)
Inductive Report :=
| Failed (now : Z) (item : NamespacedName)
| Succeeded (item : NamespacedName).

#[global] Instance Report_eq_dec : EqDecision Report.
Proof. solve_decision. Defined.

(** The report is a failure of [item]. *)
Definition failureOf (item : NamespacedName) (ev : Report) : bool :=
  match ev with
  | Failed _ i => bool_decide (i = item)
  | Succeeded _ => false
  end.

(** One report: a failure asks for a delay, a success forgets the item. *)
Definition report (r : RateLimiter) (ev : Report) : option (NamespacedName * Duration) * RateLimiter :=
  match ev with
  | Failed now item => let '(d, r') := When r now item in (Some (item, d), r')
  | Succeeded item => (None, Forget r item)
  end.

(** The limiter after a sequence of reports. *)
Fixpoint reports (r : RateLimiter) (evs : list Report) : RateLimiter :=
  match evs with
  | [] => r
  | ev :: evs => reports (report r ev).2 evs
  end.

(** The delays handed out for [item], in order, along a sequence of reports. *)
Fixpoint delays (r : RateLimiter) (item : NamespacedName) (evs : list Report) : list Duration :=
  match evs with
  | [] => []
  | ev :: evs =>
      let '(out, r') := report r ev in
      match out with
      | Some (i, d) => if decide (i = item) then d :: delays r' item evs else delays r' item evs
      | None => delays r' item evs
      end
  end.

(** The waits the bucket asked for at the failures of [item], in order. *)
Fixpoint waits (r : RateLimiter) (item : NamespacedName) (evs : list Report) : list Duration :=
  match evs with
  | [] => []
  | ev :: evs =>
      let r' := (report r ev).2 in
      if failureOf item ev
      then match ev with
           | Failed now _ => (bucketReserve r now).1 :: waits r' item evs
           | Succeeded _ => waits r' item evs
           end
      else waits r' item evs
  end.

End controllers.

(** ** pkg/ddc/base/portallocator *)

Module portallocator.

(** [net.PortRange] of apimachinery: the ports [Base, Base + Size). *)
Record PortRange := mkPortRange { Base : Z; Size : Z }.

(** The ports of a range, lowest first. *)
Definition Ports (pr : PortRange) : list Z := seqZ (Base pr) (Size pr).

Definition Contains (pr : PortRange) (p : Z) : bool :=
  (Base pr <=? p) && (p <? Base pr + Size pr).

(** Who holds a port: a runtime resource, or the engine variant's
    reservation made at initialization. *)
Inductive Holder :=
| HeldBy (ident : NamespacedName)
| Reserved.

#[global] Instance Holder_eq_dec : EqDecision Holder.
Proof. solve_decision. Defined.

Inductive AllocatePolicy := BitMap | Random.

(** Modelled from the spec: the runtime port allocator of
    [pkg/ddc/base/portallocator]. Its "port allocation table" is "a mapping
    from port number (within a configured inclusive range) to the Resource
    Identity currently holding it", kept here as the list of holdings so that
    the invariant "held by at most one identity" is a property to establish
    and not one of the representation. *)
Record RuntimePortAllocator := mkAllocator {
  pr : PortRange;
  policy : AllocatePolicy;
  table : list (Z * Holder)
}.

Inductive AllocateError := ExhaustedRange.

(** A port is taken when the table has a holding for it. *)
Definition taken (a : RuntimePortAllocator) (p : Z) : bool :=
  bool_decide (p ∈ (table a).*1).

(** The free ports of the range, lowest first. *)
Definition freePorts (a : RuntimePortAllocator) : list Z :=
  filter (λ p, taken a p = false) (Ports (pr a)).

(** Bitmap policy: "allocation scans for the lowest free bit(s)". *)
Definition scanLowest (a : RuntimePortAllocator) (count : nat) : option (list Z) :=
  let free := freePorts a in
  if decide (count ≤ length free)%nat then Some (take count free) else None.

(** Random-probe policy: "picks candidate ports uniformly at random within
    the range and retries on collision up to a bounded attempt count before
    declaring exhaustion". The candidates drawn are [probes]; their number
    is the attempt bound. *)
Fixpoint probe (a : RuntimePortAllocator) (need : nat) (probes : list Z) (got : list Z)
    : option (list Z) :=
  match need with
  | O => Some (reverse got)
  | S need' =>
      match probes with
      | [] => None
      | p :: probes' =>
          if Contains (pr a) p && negb (taken a p) && bool_decide (p ∉ got)
          then probe a need' probes' (p :: got)
          else probe a need probes' got
      end
  end.

Definition choose (a : RuntimePortAllocator) (count : nat) (probes : list Z) : option (list Z) :=
  match policy a with
  | BitMap => scanLowest a count
  | Random => probe a count probes []
  end.

(** [allocate(identity, count)]: "returns [count] distinct free ports from
    the configured range, or fails with [ExhaustedRange] if fewer than
    [count] remain". A failed call leaves the table as it was. *)
Definition allocate (a : RuntimePortAllocator) (ident : NamespacedName) (count : Z)
    (probes : list Z) : (list Z + AllocateError) * RuntimePortAllocator :=
  match choose a (Z.to_nat count) probes with
  | Some ports =>
      (inl ports,
       {| pr := pr a; policy := policy a;
          table := table a ++ ((λ p, (p, HeldBy ident)) <$> ports) |})
  | None => (inr ExhaustedRange, a)
  end.

(** [release(identity)]: "frees all ports currently held by [identity];
    idempotent". *)
Definition release (a : RuntimePortAllocator) (ident : NamespacedName) : RuntimePortAllocator :=
  {| pr := pr a; policy := policy a;
     table := filter (λ e, e.2 ≠ HeldBy ident) (table a) |}.

(** A call on the allocator; an allocation comes with the candidates the
    random policy would draw. *)
Inductive Call :=
| Allocate (ident : NamespacedName) (count : Z) (probes : list Z)
| Release (ident : NamespacedName).

Definition call (a : RuntimePortAllocator) (c : Call) : RuntimePortAllocator :=
  match c with
  | Allocate ident count probes => (allocate a ident count probes).2
  | Release ident => release a ident
  end.


(** The ports handed out by the successful allocations of a sequence of calls. *)
Fixpoint granted (a : RuntimePortAllocator) (cs : list Call) : list Z :=
  match cs with
  | [] => []
  | c :: cs =>
      match c with
      | Allocate ident count probes =>
          match (allocate a ident count probes).1 with
          | inl ports => ports ++ granted (call a c) cs
          | inr _ => granted (call a c) cs
          end
      | Release _ => granted (call a c) cs
      end
  end.




(** The holdings recorded in the persisted status of the listed runtimes. *)
Definition recordedHoldings (runtimes : list AlluxioRuntime) : list (Z * Holder) :=
  runtimes ≫= (λ rt, (λ p, (p, HeldBy (Key rt))) <$> RecordedPorts (Status rt)).

(** The policy named by the flag [port-allocate-policy], whose
    "available choice is bitmap or random". *)
Definition ValidateEnum (allocatePolicyStr : string) : result AllocatePolicy :=
  if decide (allocatePolicyStr = "bitmap") then Ok BitMap
  else if decide (allocatePolicyStr = "random") then Ok Random
  else Err (errorString ("unknown port allocate policy " +:+ allocatePolicyStr)).

(** Modelled from the spec: [SetupRuntimePortAllocator], called by [handle].
    "On startup, the allocator must list all existing runtime resources, read
    each one's already-recorded ports from its persisted status, and pre-mark
    those ports as held before serving any new allocation request"; the
    [reservedPorts] hook is "consulted at allocator initialization and merged
    into the already taken set before any allocation occurs". [listRuntimes]
    is the listing through the client, [getReservedPorts] the hook applied to
    the client. *)
Definition SetupRuntimePortAllocator (listRuntimes : result (list AlluxioRuntime))
    (pr : PortRange) (allocatePolicyStr : string)
    (getReservedPorts : result (list Z)) : result RuntimePortAllocator :=
  match ValidateEnum allocatePolicyStr with
  | Err err => Err err
  | Ok policy =>
      match listRuntimes with
      | Err err => Err err
      | Ok runtimes =>
          match getReservedPorts with
          | Err err => Err err
          | Ok ports =>
              Ok {| pr := pr; policy := policy;
                    table := recordedHoldings runtimes ++ ((λ p, (p, Reserved)) <$> ports) |}
          end
      end
  end.

End portallocator.

(** ** controller-runtime: reconcile results *)

Module ctrl.

(** [ctrl.Result]. *)
Record Result := mkResult { Requeue : bool; RequeueAfter : Duration }.

(** [ctrl.Result{}]. *)
Definition emptyResult : Result := {| Requeue := false; RequeueAfter := 0 |}.

(** What the controller does with the work item once [Reconcile] returns. *)
Inductive Disposition :=
| AddRateLimited
| AddAfter (d : Duration)
| Forget.

(** The controller's treatment of [(result, err)]: an error is retried
    through the rate limiter, a delay or a requeue request is honoured, and
    otherwise the item is forgotten. *)
Definition reconcileHandler (out : Result * option error) : Disposition :=
  match out with
  | (_, Some _) => AddRateLimited
  | (res, None) =>
      if 0 <? RequeueAfter res then AddAfter (RequeueAfter res)
      else if Requeue res then AddRateLimited
      else Forget
  end.

End ctrl.

(** ** controller-runtime: controller options *)

Module controller.

(** [controller.Options], with the two fields the entry point sets; the
    others keep their zero values. *)
Record Options := mkOptions {
  MaxConcurrentReconciles : Z;
  RateLimiter : controllers.RateLimiter
}.

End controller.

(** ** pkg/utils *)

Module utils.

(** [apierrors.IsNotFound]: the error, or one it wraps, is a status error
    with reason NotFound. *)
Fixpoint IsNotFound (err : error) : bool :=
  match err with
  | errorString _ => false
  | StatusError StatusReasonNotFound _ => true
  | StatusError _ _ => false
  | withMessage cause _ => IsNotFound cause
  end.

(** Modelled from the spec: [IgnoreNotFound], defined in [pkg/utils]:
    "NotFound (resource vanished — treat as already-Gone, not an error)";
    any other error, and [nil], is returned as it is. *)
Definition IgnoreNotFound (err : option error) : option error :=
  match err with
  | Some e => if IsNotFound e then None else Some e
  | None => None
  end.

(** Modelled from the spec: [RequeueIfError], defined in [pkg/utils]: the
    result that has the reconciliation retried, an empty [ctrl.Result]
    together with the error. *)
Definition RequeueIfError (err : option error) : ctrl.Result * option error :=
  (ctrl.emptyResult, err).

(** [errors.Wrap] of github.com/pkg/errors: [nil] stays [nil]. *)
Definition errors_Wrap (err : option error) (message : string) : option error :=
  match err with
  | Some e => Some (withMessage e message)
  | None => None
  end.

End utils.

(** ** pkg/controllers/v1alpha1/alluxio: the runtime reconciler *)

Module alluxio.

Definition controllerName : string := "AlluxioRuntimeController".

(** [sync.Mutex]. *)
Record Mutex := mkMutex { locked : bool }.

(** [cruntime.ReconcileRequestContext], with the fields [Reconcile] sets
    that are data; the context, logger, recorder and client are handles. *)
Record ReconcileRequestContext := mkContext {
  NamespacedName_ : NamespacedName;
  Category : string;
  RuntimeType : string;
  FinalizerName : string;
  Runtime : option AlluxioRuntime;
  EngineImpl : string
}.

(** Constants of [pkg/common] and of this package that [Reconcile] uses. *)
Record Constants := mkConstants {
  AccelerateCategory : string;
  AlluxioRuntimeType : string;
  AlluxioEngineImpl : string;
  runtimeResourceFinalizerName : string
}.

Section Reconciler.

(** [base.Engine], [client.Client], [runtime.Scheme] and [ctrl.Manager]. *)
Context {Engine Client Scheme Manager : Type}.

(** [RuntimeReconciler]; of the embedded generic reconciler, the client. *)
Record RuntimeReconciler := mkReconciler {
  Scheme_ : Scheme;
  engines : gmap string Engine;
  mutex : Mutex;
  Client_ : Client
}.

(** [NewRuntimeReconciler]. *)
Definition NewRuntimeReconciler (client : Client) (scheme : Scheme) : RuntimeReconciler :=
  {| Scheme_ := scheme;
     mutex := {| locked := false |};
     engines := ∅;
     Client_ := client |}.

Variable common : Constants.

(** [r.getRuntime], which reads the object through the client. *)
Variable getRuntime : RuntimeReconciler -> ReconcileRequestContext -> result AlluxioRuntime.

(** [r.ReconcileInternal] of the embedded generic reconciler: it works on
    the engines of [r] and yields the requeue decision. *)
Variable ReconcileInternal :
  ReconcileRequestContext -> RuntimeReconciler -> (ctrl.Result * option error) * RuntimeReconciler.

(** The request context [Reconcile] starts from. *)
Definition requestContext (req : NamespacedName) : ReconcileRequestContext :=
  {| NamespacedName_ := req;
     Category := AccelerateCategory common;
     RuntimeType := AlluxioRuntimeType common;
     FinalizerName := runtimeResourceFinalizerName common;
     Runtime := None;
     EngineImpl := "" |}.

(** [Reconcile]; the log lines and the time tracking are left out. *)
Definition Reconcile (r : RuntimeReconciler) (req : NamespacedName)
    : (ctrl.Result * option error) * RuntimeReconciler :=
  let ctx := requestContext req in
  match getRuntime r ctx with
  | Err err =>
      match utils.IgnoreNotFound (Some err) with
      | None => ((ctrl.emptyResult, None), r)
      | Some _ =>
          (utils.RequeueIfError (utils.errors_Wrap (Some err) "Unable to get ddc runtime"), r)
      end
  | Ok runtime =>
      let ctx := {| NamespacedName_ := NamespacedName_ ctx;
                    Category := Category ctx;
                    RuntimeType := RuntimeType ctx;
                    FinalizerName := FinalizerName ctx;
                    Runtime := Some runtime;
                    EngineImpl := ddc.InferEngineImpl (Status runtime) (AlluxioEngineImpl common) |} in
      ReconcileInternal ctx r
  end.

(** [ctrl.NewControllerManagedBy(mgr).WithOptions(options).For(&AlluxioRuntime{}).Complete(r)]
    of the controller builder. *)
Variable Complete : Manager -> controller.Options -> RuntimeReconciler -> option error.

(** [SetupWithManager]. *)
Definition SetupWithManager (r : RuntimeReconciler) (mgr : Manager)
    (options : controller.Options) : option error :=
  Complete mgr options r.

Definition ControllerName (r : RuntimeReconciler) : string := controllerName.

End Reconciler.

End alluxio.

(** ** cmd/alluxio/app: flags and the entry point *)

Module app.

(** The package variables bound to the flags of [alluxioCmd]. *)
Record Vars := mkVars {
  metricsAddr : string;
  enableLeaderElection : bool;
  leaderElectionNamespace : string;
  development : bool;
  portRange : string;
  maxConcurrentReconciles : Z;
  pprofAddr : string;
  portAllocatePolicy : string;
  kubeClientQPS : float32;
  kubeClientBurst : Z;
  controllerWorkqueueDefaultSyncBackoffStr : string;
  controllerWorkqueueMaxSyncBackoffStr : string;
  controllerWorkqueueQPS : Z;
  controllerWorkqueueBurst : Z
}.

(** The variables before [init]: Go's zero values. *)
Definition zeroVars : Vars :=
  mkVars "" false "" false "" 0 "" "" f32_zero 0 "" "" 0 0.

(** A flag value once converted to the flag's type. *)
Inductive Value :=
| StringValue (s : string)
| BoolValue (b : bool)
| IntValue (n : Z)
| Float32Value (f : float32).

(** A registered flag: its name, its default, and the store into the
    variable it is bound to ([None] for a value of another type). *)
Record Flag := mkFlag {
  Name : string;
  DefValue : Value;
  Store : Value -> Vars -> option Vars
}.

Definition StringVar (set : string -> Vars -> Vars) (name value : string) : Flag :=
  {| Name := name; DefValue := StringValue value;
     Store := λ x v, match x with StringValue s => Some (set s v) | _ => None end |}.

Definition BoolVar (set : bool -> Vars -> Vars) (name : string) (value : bool) : Flag :=
  {| Name := name; DefValue := BoolValue value;
     Store := λ x v, match x with BoolValue b => Some (set b v) | _ => None end |}.

Definition IntVar (set : Z -> Vars -> Vars) (name : string) (value : Z) : Flag :=
  {| Name := name; DefValue := IntValue value;
     Store := λ x v, match x with IntValue n => Some (set n v) | _ => None end |}.

Definition Float32Var (set : float32 -> Vars -> Vars) (name : string) (value : float32) : Flag :=
  {| Name := name; DefValue := Float32Value value;
     Store := λ x v, match x with Float32Value f => Some (set f v) | _ => None end |}.

(** The flags [init] registers on [alluxioCmd], in order. *)
Definition alluxioCmd_Flags : list Flag := [
  StringVar (λ x '(mkVars a b c d e f g h i j k l m n), mkVars x b c d e f g h i j k l m n)
    "metrics-addr" ":8080";
  BoolVar (λ x '(mkVars a b c d e f g h i j k l m n), mkVars a x c d e f g h i j k l m n)
    "enable-leader-election" false;
  StringVar (λ x '(mkVars a b c d e f g h i j k l m n), mkVars a b x d e f g h i j k l m n)
    "leader-election-namespace" "fluid-system";
  BoolVar (λ x '(mkVars a b c d e f g h i j k l m n), mkVars a b c x e f g h i j k l m n)
    "development" true;
  StringVar (λ x '(mkVars a b c d e f g h i j k l m n), mkVars a b c d x f g h i j k l m n)
    "runtime-node-port-range" "20000-25000";
  IntVar (λ x '(mkVars a b c d e f g h i j k l m n), mkVars a b c d e x g h i j k l m n)
    "runtime-workers" 3;
  StringVar (λ x '(mkVars a b c d e f g h i j k l m n), mkVars a b c d e f x h i j k l m n)
    "pprof-addr" "";
  StringVar (λ x '(mkVars a b c d e f g h i j k l m n), mkVars a b c d e f g x i j k l m n)
    "port-allocate-policy" "random";
  Float32Var (λ x '(mkVars a b c d e f g h i j k l m n), mkVars a b c d e f g h x j k l m n)
    "kube-api-qps" f32_20;
  IntVar (λ x '(mkVars a b c d e f g h i j k l m n), mkVars a b c d e f g h i x k l m n)
    "kube-api-burst" 30;
  StringVar (λ x '(mkVars a b c d e f g h i j k l m n), mkVars a b c d e f g h i j x l m n)
    "workqueue-default-sync-backoff" "5ms";
  StringVar (λ x '(mkVars a b c d e f g h i j k l m n), mkVars a b c d e f g h i j k x m n)
    "workqueue-max-sync-backoff" "1000s";
  IntVar (λ x '(mkVars a b c d e f g h i j k l m n), mkVars a b c d e f g h i j k l x n)
    "workqueue-qps" 10;
  IntVar (λ x '(mkVars a b c d e f g h i j k l m n), mkVars a b c d e f g h i j k l m x)
    "workqueue-burst" 100
].

(** Registering a flag stores its default into the bound variable. *)
Definition register (v : Vars) (f : Flag) : Vars :=
  default v (Store f (DefValue f) v).

(** [init]: the variables once the flags are registered. *)
Definition init : Vars := foldl register zeroVars alluxioCmd_Flags.

Definition Lookup (name : string) : option Flag :=
  find (λ f, bool_decide (Name f = name)) alluxioCmd_Flags.

(** Setting one flag given on the command line. *)
Definition SetFlag (v : Vars) (arg : string * Value) : result Vars :=
  match Lookup arg.1 with
  | None => Err (errorString ("unknown flag: --" +:+ arg.1))
  | Some f =>
      match Store f arg.2 v with
      | Some v' => Ok v'
      | None => Err (errorString ("invalid argument for --" +:+ arg.1))
      end
  end.

(** The variables after the command line is parsed, flag by flag. *)
Fixpoint ParseFlags (v : Vars) (args : list (string * Value)) : result Vars :=
  match args with
  | [] => Ok v
  | arg :: args =>
      match SetFlag v arg with
      | Ok v' => ParseFlags v' args
      | Err err => Err err
      end
  end.

(** [ctrl.Options] as [handle] fills it in; the scheme and the client
    constructor are fixed. *)
Record ManagerOptions := mkManagerOptions {
  MetricsBindAddress : string;
  LeaderElection : bool;
  LeaderElectionNamespace : string;
  LeaderElectionID : string
}.

(** The manager options [handle] builds from the variables. *)
Definition managerOptions (v : Vars) : ManagerOptions :=
  {| MetricsBindAddress := metricsAddr v;
     LeaderElection := enableLeaderElection v;
     LeaderElectionNamespace := leaderElectionNamespace v;
     LeaderElectionID := "alluxio.data.fluid.io" |}.

(** The calls [handle] makes on its collaborators; log messages are kept
    without their quotation marks and key-value pairs. *)
Inductive Event :=
| LogVersion
| SetLogger (development : bool)
| NewPprofServer (addr : string) (development : bool)
| LogError (err : error) (msg : string)
| LogInfo (msg : string)
| CallNewManager (options : ManagerOptions)
| CallSetupWithManager (options : controller.Options)
| CallSetupRuntimePortAllocator (pr : portallocator.PortRange) (policy : string)
| CallStart.

Section Handle.

Context {Engine Client Scheme Manager : Type}.

(** [controllers.GetConfigOrDieWithQPSAndBurst]; [None] when it does not
    return, having exited with status 1 as [GetConfigOrDie] does. *)
Variable GetConfigOrDieWithQPSAndBurst : float32 -> Z -> option config.Config.
(** [ctrl.NewManager] and the manager's accessors and [Start]. *)
Variable NewManager : config.Config -> ManagerOptions -> result Manager.
Variable GetClient : Manager -> Client.
Variable GetScheme : Manager -> Scheme.
Variable Start : Manager -> option error.
(** [time.ParseDuration] and [net.ParsePortRange]. *)
Variable ParseDuration : string -> result Duration.
Variable ParsePortRange : string -> result portallocator.PortRange.
(** The controller builder's [Complete]. *)
Variable Complete :
  Manager -> controller.Options -> @alluxio.RuntimeReconciler Engine Client Scheme -> option error.
(** [portallocator.SetupRuntimePortAllocator] and the hook
    [alluxio.GetReservedPorts] handed to it. *)
Variable GetReservedPorts : Client -> result (list Z).
Variable SetupRuntimePortAllocator :
  Client -> portallocator.PortRange -> string -> (Client -> result (list Z)) -> option error.

Definition orExit {A} (r : result A) (msg : string) : Proc Event A :=
  match r with
  | Ok a => mret a
  | Err err => emit (LogError err msg) ;; os_Exit 1
  end.

Definition exitIfError (err : option error) (msg : string) : Proc Event unit :=
  match err with
  | None => mret tt
  | Some err => emit (LogError err msg) ;; os_Exit 1
  end.

(** [handle], run with the variables [v] as the command line left them. *)
Definition handle (v : Vars) : Proc Event unit :=
  emit LogVersion ;;
  emit (SetLogger (development v)) ;;
  emit (NewPprofServer (pprofAddr v) (development v)) ;;
  cfg ← match GetConfigOrDieWithQPSAndBurst (kubeClientQPS v) (kubeClientBurst v) with
        | Some cfg => mret cfg
        | None => os_Exit 1
        end ;
  let options := managerOptions v in
emit (CallNewManager options) ;;
  mgr ← orExit (NewManager cfg options) "unable to start alluxioruntime manager" ;
  defaultSyncBackoff ← orExit (ParseDuration (controllerWorkqueueDefaultSyncBackoffStr v))
    "workqueue-default-sync-backoff is not a valid duration, please use string like 100ms, 5s, 3m, ..." ;
  maxSyncBackoff ← orExit (ParseDuration (controllerWorkqueueMaxSyncBackoffStr v))
    "workqueue-max-sync-backoff is not a valid duration, please use string like 100ms, 5s, 3m, ...)" ;
  let controllerOptions :=
    {| controller.MaxConcurrentReconciles := maxConcurrentReconciles v;
       controller.RateLimiter :=
         controllers.NewFluidControllerRateLimiter defaultSyncBackoff maxSyncBackoff
           (controllerWorkqueueQPS v) (controllerWorkqueueBurst v) |} in
  emit (CallSetupWithManager controllerOptions) ;;
  exitIfError
    (alluxio.SetupWithManager Complete
       (alluxio.NewRuntimeReconciler (GetClient mgr) (GetScheme mgr)) mgr controllerOptions)
    "unable to create controller" ;;
  pr ← orExit (ParsePortRange (portRange v))
    "can't parse port range. Port range must be like <min>-<max>" ;
  emit (LogInfo "port range parsed") ;;
  emit (CallSetupRuntimePortAllocator pr (portAllocatePolicy v)) ;;
  exitIfError
    (SetupRuntimePortAllocator (GetClient mgr) pr (portAllocatePolicy v) GetReservedPorts)
    "failed to setup runtime port allocator" ;;
  emit (LogInfo "Set up runtime port allocator") ;;
  emit (LogInfo "starting alluxioruntime-controller") ;;
  emit CallStart ;;
  exitIfError (Start mgr) "problem alluxioruntime-controller".

End Handle.

End app.


(** ** cmd/dataset/app: the entry point of the dataset controller *)

Module datasetapp.

(** The package variables bound to the flags of [datasetCmd]. *)
Record Vars := mkVars {
  metricsAddr : string;
  enableLeaderElection : bool;
  leaderElectionNamespace : string;
  development : bool;
  pprofAddr : string;
  maxConcurrentReconciles : Z;
  kubeClientQPS : float32;
  kubeClientBurst : Z;
  controllerWorkqueueDefaultSyncBackoffStr : string;
  controllerWorkqueueMaxSyncBackoffStr : string;
  controllerWorkqueueQPS : Z;
  controllerWorkqueueBurst : Z
}.

(** The two CronJob types a cache entry can be keyed by. *)
Inductive CronJobKey := BatchV1CronJob | BatchV1beta1CronJob.

(** [cache.Options] with its [ByObject] entries: the object and the label
    set its selector is made from. *)
Record CacheOptions := mkCacheOptions {
  ByObject : list (CronJobKey * list (string * string))
}.

(** [NewCacheOptions], given [compatibility.IsBatchV1CronJobSupported()] and
    the constants [common.JobPolicy] and [common.CronPolicy]. *)
Definition NewCacheOptions (IsBatchV1CronJobSupported : bool) (JobPolicy CronPolicy : string)
    : CacheOptions :=
  let cronJobKey := if IsBatchV1CronJobSupported then BatchV1CronJob else BatchV1beta1CronJob in
  {| ByObject := [(cronJobKey, [(JobPolicy, CronPolicy)])] |}.

(** [ctrl.Options] as [handle] fills it in. *)
Record ManagerOptions := mkManagerOptions {
  MetricsBindAddress : string;
  LeaderElection : bool;
  LeaderElectionNamespace : string;
  LeaderElectionID : string;
  Cache : CacheOptions
}.

(** The reconcilers [handle] can register, with the resync period of the
    two that take one. *)
Inductive Reconciler :=
| DatasetReconciler (ResyncPeriod : Duration)
| DataLoadReconciler
| DataBackupReconciler
| DataMigrateReconciler
| DataProcessReconciler
| DataFlowReconciler (resyncPeriod : Duration).

(** The calls [handle] makes on its collaborators; log messages are kept
    without their key-value pairs. *)
Inductive Event :=
| LogVersion
| GetFluidDiscovery
| SetLogger (development : bool)
| NewPprofServer (addr : string) (development : bool)
| LogError (err : error) (msg : string)
| LogInfo (msg : string)
| CallNewManager (options : ManagerOptions)
| CallSetupWithManager (r : Reconciler) (options : controller.Options)
| CallStart.

(** The reconcilers registered along a trace, in order. *)
Definition registered (t : list Event) : list Reconciler :=
  omap (λ e, match e with CallSetupWithManager r _ => Some r | _ => None end) t.

Section Handle.

Context {Manager : Type}.

(** [fluidDiscovery.ResourceEnabled] of the discovery obtained at the start,
    [dataflowctl.DataFlowEnabled()] and
    [compatibility.IsBatchV1CronJobSupported()]. *)
Variable ResourceEnabled : string -> bool.
Variable DataFlowEnabled : bool.
Variable IsBatchV1CronJobSupported : bool.
(** [common.JobPolicy] and [common.CronPolicy]. *)
Variable JobPolicy : string.
Variable CronPolicy : string.
(** [controllers.GetConfigOrDieWithQPSAndBurst]; [None] when it does not
    return, having exited with status 1 as [GetConfigOrDie] does. *)
Variable GetConfigOrDieWithQPSAndBurst : float32 -> Z -> option config.Config.
Variable NewManager : config.Config -> ManagerOptions -> result Manager.
Variable Start : Manager -> option error.
Variable ParseDuration : string -> result Duration.
(** [SetupWithManager] of the reconciler built on the manager's client,
    scheme and recorder. *)
Variable SetupWithManager : Reconciler -> Manager -> controller.Options -> option error.

Definition managerOptions (v : Vars) : ManagerOptions :=
  {| MetricsBindAddress := metricsAddr v;
     LeaderElection := enableLeaderElection v;
     LeaderElectionNamespace := leaderElectionNamespace v;
     LeaderElectionID := "dataset.data.fluid.io";
     Cache := NewCacheOptions IsBatchV1CronJobSupported JobPolicy CronPolicy |}.

Definition orExit {A} (r : result A) (msg : string) : Proc Event A :=
  match r with
  | Ok a => mret a
  | Err err => emit (LogError err msg) ;; os_Exit 1
  end.

Definition exitIfError (err : option error) (msg : string) : Proc Event unit :=
  match err with
  | None => mret tt
  | Some err => emit (LogError err msg) ;; os_Exit 1
  end.

(** One [if enabled { Info; SetupWithManager; exit on error }] block. *)
Definition registerIf (enabled : bool) (info : string) (r : Reconciler) (mgr : Manager)
    (options : controller.Options) : Proc Event unit :=
  if enabled then
    emit (LogInfo info) ;;
    emit (CallSetupWithManager r options) ;;
    exitIfError (SetupWithManager r mgr options) "unable to create controller"
  else mret tt.

(** [handle], run with the variables [v] as the command line left them. *)
Definition handle (v : Vars) : Proc Event unit :=
  emit LogVersion ;;
  emit GetFluidDiscovery ;;
  emit (SetLogger (development v)) ;;
  emit (NewPprofServer (pprofAddr v) (development v)) ;;
  cfg ← match GetConfigOrDieWithQPSAndBurst (kubeClientQPS v) (kubeClientBurst v) with
        | Some cfg => mret cfg
        | None => os_Exit 1
        end ;
  let options := managerOptions v in
  emit (CallNewManager options) ;;
  mgr ← orExit (NewManager cfg options) "unable to start dataset manager" ;
  defaultSyncBackoff ← orExit (ParseDuration (controllerWorkqueueDefaultSyncBackoffStr v))
    "workqueue-default-sync-backoff is not a valid duration, please use string like 100ms, 5s, 3m, ..." ;
  maxSyncBackoff ← orExit (ParseDuration (controllerWorkqueueMaxSyncBackoffStr v))
    "workqueue-max-sync-backoff is not a valid duration, please use string like 100ms, 5s, 3m, ...)" ;
  let controllerOptions :=
    {| controller.MaxConcurrentReconciles := maxConcurrentReconciles v;
       controller.RateLimiter :=
         controllers.NewFluidControllerRateLimiter defaultSyncBackoff maxSyncBackoff
           (controllerWorkqueueQPS v) (controllerWorkqueueBurst v) |} in
  registerIf true "Registering Dataset reconciler to Fluid controller manager."
    (DatasetReconciler (5 * Second)) mgr controllerOptions ;;
  registerIf (ResourceEnabled "dataload")
    "Registering DataLoad reconciler to Fluid controller manager."
    DataLoadReconciler mgr controllerOptions ;;
  registerIf (ResourceEnabled "databackup")
    "Registering DataBackup reconciler to Fluid controller manager."
    DataBackupReconciler mgr controllerOptions ;;
  registerIf (ResourceEnabled "datamigrate")
    "Registering DataMigrate reconciler to Fluid controller manager."
    DataMigrateReconciler mgr controllerOptions ;;
  registerIf (ResourceEnabled "dataprocess")
    "Registering DataProcess reconciler to Fluid controller manager."
    DataProcessReconciler mgr controllerOptions ;;
  registerIf DataFlowEnabled
    "Registering DataFlow reconciler to Fluid controller manager."
    (DataFlowReconciler (5 * Second)) mgr controllerOptions ;;
  emit (LogInfo "starting dataset-controller") ;;
  emit CallStart ;;
  exitIfError (Start mgr) "problem running dataset-controller".

(** The reconcilers the discovery enables, in the order of [handle]. *)
Definition enabledReconcilers : list Reconciler :=
  [DatasetReconciler (5 * Second)] ++
  (if ResourceEnabled "dataload" then [DataLoadReconciler] else []) ++
  (if ResourceEnabled "databackup" then [DataBackupReconciler] else []) ++
  (if ResourceEnabled "datamigrate" then [DataMigrateReconciler] else []) ++
  (if ResourceEnabled "dataprocess" then [DataProcessReconciler] else []) ++
  (if DataFlowEnabled then [DataFlowReconciler (5 * Second)] else []).

End Handle.

End datasetapp.

(** ** cmd/csi/app: the entry point of the CSI driver *)

Module csiapp.

(** The package variables bound to the flags of [startCmd]. *)
Record Vars := mkVars {
  endpoint : string;
  nodeID : string;
  metricsAddr : string;
  pprofAddr : string;
  pruneFs : list string;
  prunePath : string;
  kubeletKubeConfigPath : string
}.

(** [config.Config] of [pkg/csi/config], the data of the running context;
    its volume locks are created empty. *)
Record RunningConfig := mkRunningConfig {
  NodeId : string;
  Endpoint : string;
  PruneFs : list string;
  PrunePath : string;
  KubeletConfigPath : string
}.

(** The calls [handle] makes, those of [GetConfigOrDie] included. *)
Inductive Event :=
| LogVersion
| NewPprofServer (addr : string)
| OfGetConfig (e : config.Event)
| CallNewManager (cfg : config.Config) (metricsBindAddress : string)
| CallSetupWithManager (ctx : RunningConfig)
| CallStart.

(** How [handle] ends: it returns, the process exits, or it panics with a
    message made from an error. *)
Inductive End :=
| Returned
| Exited (code : Z)
| Panicked (msg : string) (err : error).

Section Handle.

Context {Manager : Type}.
Variable NewManager : config.Config -> string -> result Manager.
(** [csi.SetupWithManager]. *)
Variable SetupWithManager : Manager -> RunningConfig -> option error.
Variable Start : Manager -> option error.

(** [handle]; [ctrl.GetConfigOrDie] is [GetConfigOrDie] of the client
    configuration package, run in the environment [env]. *)
Definition handle (env : config.Env) (v : Vars) : list Event * End :=
  let t0 := [LogVersion] ++
            (if decide (pprofAddr v ≠ "") then [NewPprofServer (pprofAddr v)] else []) in
  match config.GetConfigOrDie env with
  | (tc, Exit code) => (t0 ++ (OfGetConfig <$> tc), Exited code)
  | (tc, Continue cfg) =>
      let t1 := t0 ++ (OfGetConfig <$> tc) ++ [CallNewManager cfg (metricsAddr v)] in
      match NewManager cfg (metricsAddr v) with
      | Err err => (t1, Panicked "csi: unable to create controller manager due to error" err)
      | Ok mgr =>
          let runningContext :=
            {| NodeId := nodeID v;
               Endpoint := endpoint v;
               PruneFs := pruneFs v;
               PrunePath := prunePath v;
               KubeletConfigPath := kubeletKubeConfigPath v |} in
          let t2 := t1 ++ [CallSetupWithManager runningContext] in
          match SetupWithManager mgr runningContext with
          | Some err => (t2, Panicked "unable to set up manager due to error" err)
          | None =>
              let t3 := t2 ++ [CallStart] in
              match Start mgr with
              | Some err => (t3, Panicked "unable to start controller recover due to error" err)
              | None => (t3, Returned)
              end
          end
      end
  end.

End Handle.

End csiapp.
(** ** Sample inputs *)

Module samples.

(** A process with [--kubeconfig] unset, outside a cluster, whose default
    kubeconfig leaves QPS and Burst at zero. *)
Definition envDefaults : config.Env :=
  {| config.kubeconfig := "";
     config.LookupEnv := λ k, if decide (k = "HOME") then Some "/root" else None;
     config.loadInClusterConfig := Err (errorString "not in cluster");
     config.user_Current := Ok {| config.HomeDir := "/root" |};
     config.NewDefaultClientConfigLoadingRules :=
       {| config.ExplicitPath := ""; config.Precedence := ["/root/.kube/config"] |};
     config.ClientConfig := λ _ _ _,
       Ok {| config.Host := "https://10.0.0.1:6443"; config.QPS := S754_zero true;
             config.Burst := 0 |} |}.

(** Two runtime resources and their identities. *)
Definition idA : NamespacedName := {| Namespace := "default"; Name := "hbase" |}.
Definition idB : NamespacedName := {| Namespace := "default"; Name := "spark" |}.

Definition runtimeA : AlluxioRuntime :=
  {| Key := idA; Status := {| EngineKind := Some "alluxio"; RecordedPorts := [20000; 20001] |} |}.
Definition runtimeB : AlluxioRuntime :=
  {| Key := idB; Status := {| EngineKind := None; RecordedPorts := [20005] |} |}.

Definition constants : alluxio.Constants :=
  {| alluxio.AccelerateCategory := "Accelerate";
     alluxio.AlluxioRuntimeType := "alluxio";
     alluxio.AlluxioEngineImpl := "alluxio";
     alluxio.runtimeResourceFinalizerName := "alluxio-runtime-controller-finalizer" |}.

(** A reconciler over engines, clients and schemes without content. *)
Definition reconciler : @alluxio.RuntimeReconciler unit unit unit :=
  {| alluxio.Scheme_ := tt;
     alluxio.engines := {[ "default-hbase" := tt ]};
     alluxio.mutex := {| alluxio.locked := false |};
     alluxio.Client_ := tt |}.

(** An object store from which every runtime has vanished, and one that
    times out. *)
Definition getRuntimeGone (r : @alluxio.RuntimeReconciler unit unit unit)
    (ctx : alluxio.ReconcileRequestContext) : result AlluxioRuntime :=
  Err (StatusError StatusReasonNotFound "alluxioruntimes.data.fluid.io not found").

Definition getRuntimeTimeout (r : @alluxio.RuntimeReconciler unit unit unit)
    (ctx : alluxio.ReconcileRequestContext) : result AlluxioRuntime :=
  Err (StatusError StatusReasonTimeout "request timed out").

(** A generic reconciler that evicts every engine. *)
Definition evictAll (ctx : alluxio.ReconcileRequestContext)
    (r : @alluxio.RuntimeReconciler unit unit unit)
    : (ctrl.Result * option error) * @alluxio.RuntimeReconciler unit unit unit :=
  ((ctrl.emptyResult, None),
   {| alluxio.Scheme_ := tt; alluxio.engines := ∅;
      alluxio.mutex := {| alluxio.locked := false |}; alluxio.Client_ := tt |}).

(** Collaborators of the entry point that always succeed, with the two
    parsers defined on the default flag values only. *)
Definition parseDuration (s : string) : result Duration :=
  if decide (s = "5ms") then Ok (5 * Millisecond)
  else if decide (s = "1000s") then Ok (1000 * Second)
  else Err (errorString ("time: invalid duration " +:+ s)).

Definition parsePortRange (s : string) : result portallocator.PortRange :=
  if decide (s = "20000-25000")
  then Ok {| portallocator.Base := 20000; portallocator.Size := 5001 |}
  else Err (errorString ("unable to parse port range: " +:+ s)).

Definition handleSample (v : app.Vars) : Proc app.Event unit :=
  app.handle (Engine := unit) (Client := unit) (Scheme := unit) (Manager := unit)
    (λ qps burst, Some {| config.Host := "https://10.0.0.1:6443"; config.QPS := qps;
                          config.Burst := burst |})
    (λ _ _, Ok tt) (λ _, tt) (λ _, tt) (λ _, None)
    parseDuration parsePortRange (λ _ _ _, None) (λ _, Ok []) (λ _ _ _ _, None) v.

(** The variables after [--workqueue-max-sync-backoff=forever] and after
    [--runtime-node-port-range=20000:25000]. *)
Definition badBackoff : app.Vars :=
  match app.ParseFlags app.init [("workqueue-max-sync-backoff", app.StringValue "forever")] with
  | Ok v => v
  | Err _ => app.init
  end.

Definition badPortRange : app.Vars :=
  match app.ParseFlags app.init [("runtime-node-port-range", app.StringValue "20000:25000")] with
  | Ok v => v
  | Err _ => app.init
  end.

(** The limiter of the default flags and a run of failures of [idA] with a
    failure of [idB] in between. *)
Definition limiter : controllers.RateLimiter :=
  controllers.NewFluidControllerRateLimiter (5 * Millisecond) (1000 * Second) 10 100.

Definition failures : list controllers.Report :=
  [controllers.Failed 0 idA; controllers.Failed 0 idB;
   controllers.Failed (5 * Millisecond) idA; controllers.Failed (20 * Millisecond) idA].

(** A limiter whose bucket holds one token and earns one per second, with
    a ceiling of 100ms, and one whose base backoff is above its ceiling. *)
Definition scarceLimiter : controllers.RateLimiter :=
  controllers.NewFluidControllerRateLimiter (5 * Millisecond) (100 * Millisecond) 1 1.

Definition invertedLimiter : controllers.RateLimiter :=
  controllers.NewFluidControllerRateLimiter (10 * Second) (1 * Second) 10 100.

(** Three consecutive failures of one item: at once, after the 5ms of its
    first delay, and ten seconds later. *)
Definition threeFailures : list controllers.Report :=
  [controllers.Failed 0 idA; controllers.Failed (5 * Millisecond) idA;
   controllers.Failed (10 * Second) idA].

(** The range [20000, 20010) and a run of calls on a fresh allocator. *)
Definition range : portallocator.PortRange :=
  {| portallocator.Base := 20000; portallocator.Size := 10 |}.


(** Calls after a restart in which [idA] never releases. *)
Definition afterRestart : list portallocator.Call :=
  [portallocator.Allocate idB 4 [20000; 20007; 20001; 20003; 20005; 20009; 20002; 20004];
   portallocator.Release idB;
   portallocator.Allocate idB 2 [20005; 20000; 20006]].

(** A process inside a cluster, with neither flag nor environment set. *)
Definition envInCluster : config.Env :=
  {| config.kubeconfig := "";
     config.LookupEnv := λ _, None;
     config.loadInClusterConfig :=
       Ok {| config.Host := "https://kubernetes.default.svc"; config.QPS := f32_zero;
             config.Burst := 0 |};
     config.user_Current := Err (errorString "user: unknown userid 1000");
     config.NewDefaultClientConfigLoadingRules :=
       {| config.ExplicitPath := ""; config.Precedence := [] |};
     config.ClientConfig := λ _ _ _, Err (errorString "invalid configuration") |}.

(** A process with [--kubeconfig=/etc/k.conf], whose file gives QPS 5. *)
Definition envFlag : config.Env :=
  {| config.kubeconfig := "/etc/k.conf";
     config.LookupEnv := λ _, None;
     config.loadInClusterConfig := Err (errorString "not in cluster");
     config.user_Current := Err (errorString "user: unknown userid 1000");
     config.NewDefaultClientConfigLoadingRules :=
       {| config.ExplicitPath := ""; config.Precedence := [] |};
     config.ClientConfig := λ _ rules _,
       if decide (config.ExplicitPath rules = "/etc/k.conf")
       then Ok {| config.Host := "https://10.0.0.1:6443";
                  config.QPS := S754_finite false 10485760 (-21); config.Burst := 7 |}
       else Err (errorString "invalid configuration") |}.

(** A process outside a cluster with [HOME] unset and no current user. *)
Definition envNoHome : config.Env :=
  {| config.kubeconfig := "";
     config.LookupEnv := λ _, None;
     config.loadInClusterConfig := Err (errorString "not in cluster");
     config.user_Current := Err (errorString "user: unknown userid 1000");
     config.NewDefaultClientConfigLoadingRules :=
       {| config.ExplicitPath := ""; config.Precedence := [] |};
     config.ClientConfig := λ _ _ _, Err (errorString "invalid configuration") |}.

(** A process outside a cluster with [HOME] unset, whose user has the home
    directory [/home/fluid/]; the configuration is found in the user's file. *)
Definition envUserHome : config.Env :=
  {| config.kubeconfig := "";
     config.LookupEnv := λ _, None;
     config.loadInClusterConfig := Err (errorString "not in cluster");
     config.user_Current := Ok {| config.HomeDir := "/home/fluid/" |};
     config.NewDefaultClientConfigLoadingRules :=
       {| config.ExplicitPath := ""; config.Precedence := ["/etc/kube.conf"] |};
     config.ClientConfig := λ _ rules _,
       if decide (config.Precedence rules = ["/etc/kube.conf"; "/home/fluid/.kube/config"])
       then Ok {| config.Host := "https://10.0.0.1:6443"; config.QPS := f32_zero;
                  config.Burst := 0 |}
       else Err (errorString "invalid configuration") |}.

(** A command line on which another package has defined [kubeconfig]. *)
Definition commandLineTaken : config.FlagSet :=
  {| config.formal := {[ "kubeconfig" := "/etc/other.conf"; "v" := "2" ]} |}.

(** A process started with [--kubeconfig=/etc/k.conf] on a file that
    already holds the defaults. *)
Definition envReloaded : config.Env :=
  {| config.kubeconfig := "/etc/k.conf";
     config.LookupEnv := λ _, None;
     config.loadInClusterConfig := Err (errorString "not in cluster");
     config.user_Current := Err (errorString "user: unknown userid 1000");
     config.NewDefaultClientConfigLoadingRules :=
       {| config.ExplicitPath := ""; config.Precedence := [] |};
     config.ClientConfig := λ _ _ _,
       Ok {| config.Host := "https://kubernetes.default.svc"; config.QPS := f32_20;
             config.Burst := 30 |} |}.

(** The dataset controller with its default flags, on a cluster whose
    discovery enables DataLoad and DataProcess only, all calls succeeding
    and the durations parsed as [parseDuration] does. *)
Definition datasetVars : datasetapp.Vars :=
  datasetapp.mkVars ":8080" false "fluid-system" true "" 3 f32_20 30 "5ms" "1000s" 10 100.

Definition discovery (resource : string) : bool :=
  bool_decide (resource = "dataload" ∨ resource = "dataprocess").

Definition datasetSample (v : datasetapp.Vars) : Proc datasetapp.Event unit :=
  datasetapp.handle (Manager := unit) discovery false true "fluid.io/jobPolicy" "cron"
    (λ qps burst, Some {| config.Host := "https://10.0.0.1:6443"; config.QPS := qps;
                          config.Burst := burst |})
    (λ _ _, Ok tt) (λ _, None) parseDuration (λ _ _ _, None) v.

Definition datasetBadBackoff : datasetapp.Vars :=
  datasetapp.mkVars ":8080" false "fluid-system" true "" 3 f32_20 30 "soon" "1000s" 10 100.

(** The CSI driver on node [node-1], all calls succeeding. *)
Definition csiVars : csiapp.Vars :=
  csiapp.mkVars "unix:///csi/csi.sock" "node-1" ":8080" "" ["fuse.alluxio-fuse"; "ossfs"]
    "/runtime-mnt" "/etc/kubernetes/kubelet.conf".

Definition csiSample (env : config.Env) : list csiapp.Event * csiapp.End :=
  csiapp.handle (Manager := unit) (λ _ _, Ok tt) (λ _ _, None) (λ _, None) env csiVars.

End samples.

(** * Properties *)

(** ** Client configuration *)

Section ConfigProperties.

Import config.

(** [cfg.QPS == 0.0] holds for the two zeros and for nothing else. *)
Lemma f32_eq_zero (q : float32) :
  SFeqb q f32_zero = true ↔ ∃ s, q = S754_zero s.
Proof.
  split.
  - intros H. destruct q as [s|[]| |[] m e]; try discriminate H. by eexists.
  - by intros [s ->].
Qed.

Lemma f32_20_nonzero : SFeqb f32_20 f32_zero = false.
Proof. reflexivity. Qed.

(** C8: [GetConfigWithContext] hands back the loaded configuration with
    QPS replaced by 20.0 when (and only when) the loaded QPS equals 0.0 and
    Burst replaced by 30 when (and only when) the loaded Burst is 0; every
    other value is returned as loaded, and a loading error is returned as
    it is, with no configuration. *)
Theorem GetConfigWithContext_defaults (env : Env) (context : string) :
  (∀ err, loadConfig env context = Err err →
     GetConfigWithContext env context = Err err) ∧
  (∀ cfg, loadConfig env context = Ok cfg →
     ∃ cfg', GetConfigWithContext env context = Ok cfg' ∧
       Host cfg' = Host cfg ∧
       (SFeqb (QPS cfg) f32_zero = true → QPS cfg' = f32_20) ∧
       (SFeqb (QPS cfg) f32_zero = false → QPS cfg' = QPS cfg) ∧
       (Burst cfg = 0 → Burst cfg' = 30) ∧
       (Burst cfg ≠ 0 → Burst cfg' = Burst cfg) ∧
       (QPS cfg' ≠ QPS cfg ↔ SFeqb (QPS cfg) f32_zero = true) ∧
       (Burst cfg' ≠ Burst cfg ↔ Burst cfg = 0)).
Proof.
  unfold GetConfigWithContext. split.
  - by intros err ->.
  - intros [h q b] ->. eexists. split; [reflexivity|]. cbn [QPS Burst Host].
    destruct (SFeqb q f32_zero) eqn:Hq; cbn [QPS Burst Host];
      destruct (Z.eqb_spec b 0) as [Hb|Hb]; cbn [QPS Burst Host];
      repeat split; try done; try lia; try (intros; exfalso; auto; fail).
    all: try (intros _; intros <-; by rewrite f32_20_nonzero in Hq).
    all: try (intros _; lia).
Qed.

End ConfigProperties.

(** The defaults at work: a kubeconfig with QPS [-0.0] and Burst [0]. *)
Lemma GetConfigWithContext_defaults_witness :
  ∃ cfg', config.GetConfigWithContext samples.envDefaults "" = Ok cfg' ∧
    config.QPS cfg' = f32_20 ∧ config.Burst cfg' = 30.
Proof.
  destruct (GetConfigWithContext_defaults samples.envDefaults "") as [_ H].
  destruct (H _ eq_refl) as (cfg' & Hget & _ & Hq & _ & Hb & _).
  exists cfg'. split; [exact Hget|]. split; [by apply Hq | by apply Hb].
Defined.

(** ** Engine-kind inference *)




(** ** The reconciler *)

Section ReconcilerProperties.

Context {Engine Client Scheme : Type}.
Variable common : alluxio.Constants.
Variable getRuntime :
  @alluxio.RuntimeReconciler Engine Client Scheme -> alluxio.ReconcileRequestContext ->
  result AlluxioRuntime.

Local Abbreviation Reconciler := (@alluxio.RuntimeReconciler Engine Client Scheme).
Local Abbreviation Internal :=
  (alluxio.ReconcileRequestContext -> Reconciler -> (ctrl.Result * option error) * Reconciler).

(** C4: when loading the runtime fails, [Reconcile] returns the empty
    result and no error if the failure is NotFound, so that the item is
    forgotten and not requeued; for any other failure it returns the empty
    result together with the wrapped error, so that the item is retried
    through the rate limiter. *)
Theorem Reconcile_load_failure (ReconcileInternal : Internal)
    (r : Reconciler) (req : NamespacedName) (err : error) :
  getRuntime r (alluxio.requestContext common req) = Err err →
  let out := (alluxio.Reconcile common getRuntime ReconcileInternal r req).1 in
  (utils.IsNotFound err = true →
     out = (ctrl.emptyResult, None) ∧ ctrl.reconcileHandler out = ctrl.Forget) ∧
  (utils.IsNotFound err = false →
     out = (ctrl.emptyResult, Some (withMessage err "Unable to get ddc runtime")) ∧
     ctrl.reconcileHandler out = ctrl.AddRateLimited).
Proof.
  intros Hget out. subst out. unfold alluxio.Reconcile. rewrite Hget.
  cbn [utils.IgnoreNotFound]. split; intros ->; by cbn.
Qed.

(** C9: when the runtime is not found, [Reconcile] gives back the
    reconciler it was called on, engines map and mutex included, and does
    so whatever the generic reconciler would have done: no engine is
    constructed and none is evicted on that path. *)
Theorem Reconcile_not_found_frame (ReconcileInternal : Internal)
    (r : Reconciler) (req : NamespacedName) (err : error) :
  getRuntime r (alluxio.requestContext common req) = Err err →
  utils.IsNotFound err = true →
  let r' := (alluxio.Reconcile common getRuntime ReconcileInternal r req).2 in
  r' = r ∧ alluxio.engines r' = alluxio.engines r ∧ alluxio.mutex r' = alluxio.mutex r ∧
  ∀ other : Internal,
    alluxio.Reconcile common getRuntime other r req =
    alluxio.Reconcile common getRuntime ReconcileInternal r req.
Proof.
  intros Hget Hnf r'. subst r'. unfold alluxio.Reconcile. rewrite Hget.
  cbn [utils.IgnoreNotFound]. by rewrite Hnf.
Qed.

End ReconcilerProperties.

Lemma Reconcile_load_failure_witness :
  (alluxio.Reconcile samples.constants samples.getRuntimeGone samples.evictAll
     samples.reconciler samples.idA).1 = (ctrl.emptyResult, None) ∧
  ctrl.reconcileHandler
    (alluxio.Reconcile samples.constants samples.getRuntimeTimeout samples.evictAll
       samples.reconciler samples.idA).1 = ctrl.AddRateLimited.
Proof.
  split.
  - by apply (Reconcile_load_failure samples.constants samples.getRuntimeGone samples.evictAll
                samples.reconciler samples.idA _ eq_refl).
  - by apply (Reconcile_load_failure samples.constants samples.getRuntimeTimeout samples.evictAll
                samples.reconciler samples.idA _ eq_refl).
Defined.

Lemma Reconcile_not_found_frame_witness :
  alluxio.engines
    (alluxio.Reconcile samples.constants samples.getRuntimeGone samples.evictAll
       samples.reconciler samples.idA).2 = {[ "default-hbase" := tt ]}.
Proof.
  by destruct (Reconcile_not_found_frame samples.constants samples.getRuntimeGone
                 samples.evictAll samples.reconciler samples.idA _ eq_refl eq_refl)
    as (_ & -> & _).
Defined.

(** ** The entry point *)

Section HandleProperties.

Context {Engine Client Scheme Manager : Type}.
Variable GetConfigOrDieWithQPSAndBurst : float32 -> Z -> option config.Config.
Variable NewManager : config.Config -> app.ManagerOptions -> result Manager.
Variable GetClient : Manager -> Client.
Variable GetScheme : Manager -> Scheme.
Variable Start : Manager -> option error.
Variable ParseDuration : string -> result Duration.
Variable ParsePortRange : string -> result portallocator.PortRange.
Variable Complete :
  Manager -> controller.Options -> @alluxio.RuntimeReconciler Engine Client Scheme -> option error.
Variable GetReservedPorts : Client -> result (list Z).
Variable SetupRuntimePortAllocator :
  Client -> portallocator.PortRange -> string -> (Client -> result (list Z)) -> option error.

Local Abbreviation handle :=
  (app.handle GetConfigOrDieWithQPSAndBurst NewManager GetClient GetScheme Start ParseDuration
     ParsePortRange Complete GetReservedPorts SetupRuntimePortAllocator).

(** Unfolds [handle] in [Hh] and splits on the outcome of each call. *)
Ltac handle_unfold Hh :=
  unfold app.handle, app.orExit, app.exitIfError, alluxio.SetupWithManager in Hh;
  unfold mbind, Proc_bind, mret, Proc_ret, emit, os_Exit in Hh.

Ltac handle_cases Hh :=
  handle_unfold Hh;
  repeat match type of Hh with
  | context [match ?x with _ => _ end] =>
      lazymatch x with
      | GetConfigOrDieWithQPSAndBurst _ _ => idtac
      | NewManager _ _ => idtac
      | ParseDuration _ => idtac
      | ParsePortRange _ => idtac
      | Complete _ _ _ => idtac
      | SetupRuntimePortAllocator _ _ _ _ => idtac
      | Start _ => idtac
      end; destruct x eqn:?; cbn in Hh
  end;
  injection Hh as <- <-.

(** Decides whether a call is in a trace that is written out. *)
Ltac not_in_trace Hin :=
  repeat (apply elem_of_cons in Hin as [Hin|Hin]; [discriminate Hin|]);
  by apply elem_of_nil in Hin.

(** The only controller options [handle] ever registers: the variables and
    the two parsed durations, as they are. *)
Lemma handle_registers (v : app.Vars) (options : controller.Options) :
  app.CallSetupWithManager options ∈ (handle v).1 →
  ∃ d1 d2,
    ParseDuration (app.controllerWorkqueueDefaultSyncBackoffStr v) = Ok d1 ∧
    ParseDuration (app.controllerWorkqueueMaxSyncBackoffStr v) = Ok d2 ∧
    options =
      {| controller.MaxConcurrentReconciles := app.maxConcurrentReconciles v;
         controller.RateLimiter :=
           controllers.NewFluidControllerRateLimiter d1 d2
             (app.controllerWorkqueueQPS v) (app.controllerWorkqueueBurst v) |}.
Proof.
  destruct (handle v) as [t o] eqn:Hh. cbn [fst]. handle_cases Hh; intros Hin.
  all: repeat (apply elem_of_cons in Hin as [Hin|Hin];
               [first [discriminate Hin | injection Hin as ->; by eauto]|]).
  all: by apply elem_of_nil in Hin.
Qed.

(** Once the manager exists and both durations parse, the reconciler is
    registered with these options. *)
Lemma handle_reaches_registration (v : app.Vars) cfg mgr d1 d2 :
  GetConfigOrDieWithQPSAndBurst (app.kubeClientQPS v) (app.kubeClientBurst v) = Some cfg →
  NewManager cfg (app.managerOptions v) = Ok mgr →
  ParseDuration (app.controllerWorkqueueDefaultSyncBackoffStr v) = Ok d1 →
  ParseDuration (app.controllerWorkqueueMaxSyncBackoffStr v) = Ok d2 →
  app.CallSetupWithManager
    {| controller.MaxConcurrentReconciles := app.maxConcurrentReconciles v;
       controller.RateLimiter :=
         controllers.NewFluidControllerRateLimiter d1 d2
           (app.controllerWorkqueueQPS v) (app.controllerWorkqueueBurst v) |}
    ∈ (handle v).1.
Proof.
  intros Hc Hm H1 H2.
  destruct (handle v) as [t o] eqn:Hh. cbn [fst]. handle_unfold Hh.
  rewrite Hc in Hh; cbn in Hh. rewrite Hm in Hh; cbn in Hh.
  rewrite H1 in Hh; cbn in Hh. rewrite H2 in Hh; cbn in Hh.
  handle_cases Hh.
  all: do 4 apply list_elem_of_further; apply list_elem_of_here.
Qed.

(** C7: the scheduler's knobs are the worker count (flag [runtime-workers],
    default 3), the base backoff (default ["5ms"]), the ceiling backoff
    (default ["1000s"]), and the token bucket's rate (default 10) and burst
    (default 100); whatever values the command line leaves in the variables
    are what [handle] puts into the controller options and the rate limiter,
    the two durations as [time.ParseDuration] returns them. *)
Theorem handle_scheduler_knobs (v : app.Vars) :
  (app.maxConcurrentReconciles app.init = 3 ∧
   app.controllerWorkqueueDefaultSyncBackoffStr app.init = "5ms" ∧
   app.controllerWorkqueueMaxSyncBackoffStr app.init = "1000s" ∧
   app.controllerWorkqueueQPS app.init = 10 ∧
   app.controllerWorkqueueBurst app.init = 100) ∧
  (∀ n s1 s2 q b, ∃ v',
     app.ParseFlags v [("runtime-workers", app.IntValue n);
                       ("workqueue-default-sync-backoff", app.StringValue s1);
                       ("workqueue-max-sync-backoff", app.StringValue s2);
                       ("workqueue-qps", app.IntValue q);
                       ("workqueue-burst", app.IntValue b)] = Ok v' ∧
     app.maxConcurrentReconciles v' = n ∧
     app.controllerWorkqueueDefaultSyncBackoffStr v' = s1 ∧
     app.controllerWorkqueueMaxSyncBackoffStr v' = s2 ∧
     app.controllerWorkqueueQPS v' = q ∧
     app.controllerWorkqueueBurst v' = b) ∧
  (∀ options, app.CallSetupWithManager options ∈ (handle v).1 →
     ∃ d1 d2,
       ParseDuration (app.controllerWorkqueueDefaultSyncBackoffStr v) = Ok d1 ∧
       ParseDuration (app.controllerWorkqueueMaxSyncBackoffStr v) = Ok d2 ∧
       controller.MaxConcurrentReconciles options = app.maxConcurrentReconciles v ∧
       controllers.baseDelay (controller.RateLimiter options) = d1 ∧
       controllers.maxDelay (controller.RateLimiter options) = d2 ∧
       controllers.bucketQPS (controller.RateLimiter options) = app.controllerWorkqueueQPS v ∧
       controllers.bucketBurst (controller.RateLimiter options) = app.controllerWorkqueueBurst v) ∧
  (∀ cfg mgr d1 d2,
     GetConfigOrDieWithQPSAndBurst (app.kubeClientQPS v) (app.kubeClientBurst v) = Some cfg →
     NewManager cfg (app.managerOptions v) = Ok mgr →
     ParseDuration (app.controllerWorkqueueDefaultSyncBackoffStr v) = Ok d1 →
     ParseDuration (app.controllerWorkqueueMaxSyncBackoffStr v) = Ok d2 →
     app.CallSetupWithManager
       {| controller.MaxConcurrentReconciles := app.maxConcurrentReconciles v;
          controller.RateLimiter :=
            controllers.NewFluidControllerRateLimiter d1 d2
              (app.controllerWorkqueueQPS v) (app.controllerWorkqueueBurst v) |}
       ∈ (handle v).1).
Proof.
  split; [by repeat split|]. split.
  { intros n s1 s2 q b. destruct v. eexists. split; [reflexivity|]. by repeat split. }
  split; [|apply handle_reaches_registration].
  intros options Hin. destruct (handle_registers v options Hin) as (d1 & d2 & H1 & H2 & ->).
  exists d1, d2. by repeat split.
Qed.

(** C10: if either backoff flag does not parse as a duration, or the port
    range does not parse, [handle] ends the process with status 1 without
    having started the manager, so that no reconciler runs, and without
    having set up the port allocator; when it is a backoff flag that does
    not parse, the reconciler has not been registered either. *)
Theorem handle_exits_on_bad_flags (v : app.Vars) :
  failed (ParseDuration (app.controllerWorkqueueDefaultSyncBackoffStr v)) ∨
  failed (ParseDuration (app.controllerWorkqueueMaxSyncBackoffStr v)) ∨
  failed (ParsePortRange (app.portRange v)) →
  (handle v).2 = Exit 1 ∧
  (app.CallStart ∉ (handle v).1) ∧
  (∀ pr policy, app.CallSetupRuntimePortAllocator pr policy ∉ (handle v).1) ∧
  (failed (ParseDuration (app.controllerWorkqueueDefaultSyncBackoffStr v)) ∨
   failed (ParseDuration (app.controllerWorkqueueMaxSyncBackoffStr v)) →
   ∀ options, app.CallSetupWithManager options ∉ (handle v).1).
Proof.
  intros H. destruct (handle v) as [t o] eqn:Hh. cbn [fst snd]. handle_cases Hh.
  all: try (destruct H as [[? ?]|[[? ?]|[? ?]]]; congruence).
  all: split; [reflexivity|].
  all: split; [intros Hin; not_in_trace Hin|].
  all: split; [intros pr policy Hin; not_in_trace Hin|].
  all: intros H' options Hin; try (destruct H' as [[? ?]|[? ?]]; congruence).
  all: not_in_trace Hin.
Qed.

End HandleProperties.

Lemma handle_scheduler_knobs_witness :
  app.CallSetupWithManager
    {| controller.MaxConcurrentReconciles := 3;
       controller.RateLimiter :=
         controllers.NewFluidControllerRateLimiter (5 * Millisecond) (1000 * Second) 10 100 |}
    ∈ (samples.handleSample app.init).1.
Proof.
  unfold samples.handleSample.
  by eapply (handle_scheduler_knobs (Engine := unit) (Client := unit) (Scheme := unit)
            (Manager := unit) _ _ _ _ _ samples.parseDuration _ _ _ _ app.init).
Defined.

Lemma handle_exits_on_bad_flags_witness :
  (samples.handleSample samples.badBackoff).2 = Exit 1 ∧
  (samples.handleSample samples.badPortRange).2 = Exit 1 ∧
  app.CallStart ∉ (samples.handleSample samples.badPortRange).1.
Proof.
  unfold samples.handleSample. split; [|split].
  - eapply (handle_exits_on_bad_flags (Engine := unit) (Client := unit) (Scheme := unit)
              (Manager := unit) _ _ _ _ _ samples.parseDuration samples.parsePortRange).
    right; left. by eexists.
  - eapply (handle_exits_on_bad_flags (Engine := unit) (Client := unit) (Scheme := unit)
              (Manager := unit) _ _ _ _ _ samples.parseDuration samples.parsePortRange).
    right; right. by eexists.
  - eapply (handle_exits_on_bad_flags (Engine := unit) (Client := unit) (Scheme := unit)
              (Manager := unit) _ _ _ _ _ samples.parseDuration samples.parsePortRange).
    right; right. by eexists.
Defined.

(** ** The rate limiter *)

Section RateLimiterProperties.

Import controllers.

Lemma backoff_mono r (n m : nat) :
  0 ≤ baseDelay r → (n ≤ m)%nat → backoff r n ≤ backoff r m.
Proof.
  intros Hb Hnm. unfold backoff. apply Z.min_le_compat_r.
  apply Z.mul_le_mono_nonneg_l; [done|]. apply Z.pow_le_mono_r; lia.
Qed.

Lemma backoff_le_max r n : backoff r n ≤ maxDelay r.
Proof. unfold backoff. apply Z.le_min_r. Qed.

Lemma backoff_ge_base r n :
  0 ≤ baseDelay r → baseDelay r ≤ maxDelay r → baseDelay r ≤ backoff r n.
Proof.
  intros Hb Hm. unfold backoff. apply Z.min_glb; [|done].
  assert (1 ≤ 2 ^ Z.of_nat n) by (apply Z.pow_le_mono_r with (b := 0); lia). nia.
Qed.

Lemma backoff_0 r : baseDelay r ≤ maxDelay r → backoff r 0 = baseDelay r.
Proof. intros Hm. unfold backoff. cbn. lia. Qed.

(** A report changes the failure counts and the bucket, not the backoff
    configuration. *)
Lemma backoff_report r ev n : backoff (report r ev).2 n = backoff r n.
Proof. by destruct ev. Qed.

Lemma baseDelay_reports r evs : baseDelay (reports r evs) = baseDelay r.
Proof.
  revert r. induction evs as [|ev evs IH]; intros r; [done|].
  cbn. rewrite IH. by destruct ev.
Qed.

Lemma maxDelay_reports r evs : maxDelay (reports r evs) = maxDelay r.
Proof.
  revert r. induction evs as [|ev evs IH]; intros r; [done|].
  cbn. rewrite IH. by destruct ev.
Qed.

Lemma reports_app r xs ys : reports r (xs ++ ys) = reports (reports r xs) ys.
Proof. revert r. induction xs as [|x xs IH]; intros r; [done|]. cbn. apply IH. Qed.

(** How one report moves the failure count of an item. *)
Lemma NumRequeues_report r ev item :
  NumRequeues (report r ev).2 item =
  match ev with
  | Failed _ i => if decide (i = item) then S (NumRequeues r item) else NumRequeues r item
  | Succeeded i => if decide (i = item) then 0%nat else NumRequeues r item
  end.
Proof.
  destruct ev as [now i|i]; unfold NumRequeues; cbn; case_decide; subst.
  - by rewrite lookup_insert_eq.
  - by rewrite lookup_insert_ne.
  - by rewrite lookup_delete_eq.
  - by rewrite lookup_delete_ne.
Qed.

Lemma NumRequeues_quiet r item others :
  Forall (λ ev, failureOf item ev = false) others → NumRequeues r item = 0%nat →
  NumRequeues (reports r others) item = 0%nat.
Proof.
  revert r. induction others as [|ev evs IH]; intros r Hnot H0; [done|].
  apply Forall_cons in Hnot as [Hne Hnot]. cbn. apply IH; [done|].
  rewrite NumRequeues_report. destruct ev as [now i|i]; case_decide; subst; try done.
  cbn in Hne. by rewrite bool_decide_eq_true_2 in Hne.
Qed.

(** Between two successes, the [k]-th delay of an item is the larger of the
    backoff after [k] more failures than it started with and of the wait
    the bucket asked for at that insertion. *)
Lemma delays_lookup r item evs (k : nat) x :
  Succeeded item ∉ evs → delays r item evs !! k = Some x →
  ∃ w, waits r item evs !! k = Some w ∧
       x = Z.max (backoff r (NumRequeues r item + k)) w.
Proof.
  revert r k. induction evs as [|ev evs IH]; intros r k Hnot Hk; [done|].
  apply not_elem_of_cons in Hnot as [Hne Hnot].
  pose proof (NumRequeues_report r ev item) as Hn.
  pose proof (backoff_report r ev) as Hb.
  destruct ev as [now i|i]; cbn in Hk, Hn, Hb; cbn [waits failureOf].
  - destruct (decide (i = item)) as [->|Hi].
    + rewrite bool_decide_eq_true_2 by done. destruct k as [|k]; cbn in Hk.
      * injection Hk as <-. eexists. split; [reflexivity|]. do 2 f_equal. lia.
      * apply IH in Hk as (w & Hw & ->); [|done]. exists w. split; [exact Hw|].
        cbn. cbn in Hn. rewrite Hn.
        change (backoff _ ?n) with (backoff (report r (Failed now item)).2 n).
        rewrite Hb. do 2 f_equal. lia.
    + rewrite bool_decide_eq_false_2 by done.
      apply IH in Hk as (w & Hw & ->); [|done]. exists w. split; [exact Hw|].
      cbn. cbn in Hn. rewrite Hn.
      change (backoff _ ?n) with (backoff (report r (Failed now i)).2 n). by rewrite Hb.
  - destruct (decide (i = item)) as [->|Hi]; [done|].
    apply IH in Hk as (w & Hw & ->); [|done]. exists w. split; [exact Hw|].
    cbn. cbn in Hn. rewrite Hn.
    change (backoff _ ?n) with (backoff (report r (Succeeded i)).2 n). by rewrite Hb.
Qed.

(** Every failure of the item is answered with a delay. *)
Lemma delays_length r item evs :
  length (delays r item evs) = length (filter (λ ev, failureOf item ev = true) evs).
Proof.
  revert r. induction evs as [|ev evs IH]; intros r; [done|].
  rewrite filter_cons. destruct ev as [now i|i]; cbn [delays report When Forget failureOf].
  - destruct (decide (i = item)) as [->|Hne].
    + rewrite bool_decide_eq_true_2 by done. rewrite decide_True by done. cbn. by rewrite IH.
    + rewrite bool_decide_eq_false_2 by done. rewrite decide_False by done. by rewrite IH.
  - rewrite decide_False by done. by rewrite IH.
Qed.

(** C6: the retry delay is the larger of the item's exponential backoff and
    of the wait of the token bucket that all insertions share. With a base
    backoff that is not negative and not above the maximum, along any
    sequence of reports in which the item never succeeds there is one delay
    per failure of the item, never below its backoff; the backoff never
    decreases from one failure to the next and stays between the base and
    the maximum; whenever the bucket asks for no more than the base, the
    delays are these backoffs, so that they never decrease and never exceed
    the maximum; and after a success the next failure of the item is
    delayed by the base backoff, or by the bucket's wait if that is longer. *)
Theorem retry_delay_backoff_and_bucket (r : RateLimiter) (item : NamespacedName)
    (evs : list Report) :
  0 ≤ baseDelay r → baseDelay r ≤ maxDelay r → Succeeded item ∉ evs →
  length (delays r item evs) = length (filter (λ ev, failureOf item ev = true) evs) ∧
  (∀ (i : nat) d, delays r item evs !! i = Some d →
     ∃ w, waits r item evs !! i = Some w ∧
          d = Z.max (backoff r (NumRequeues r item + i)) w) ∧
  (∀ i j : nat, (i ≤ j)%nat →
     baseDelay r ≤ backoff r (NumRequeues r item + i) ∧
     backoff r (NumRequeues r item + i) ≤ backoff r (NumRequeues r item + j) ∧
     backoff r (NumRequeues r item + j) ≤ maxDelay r) ∧
  ((∀ w, w ∈ waits r item evs → w ≤ baseDelay r) →
     (∀ (i j : nat) x y, (i ≤ j)%nat →
        delays r item evs !! i = Some x → delays r item evs !! j = Some y → x ≤ y) ∧
     (∀ x, x ∈ delays r item evs → baseDelay r ≤ x ≤ maxDelay r)) ∧
  (∀ others now, Forall (λ ev, failureOf item ev = false) others →
     delays (reports r (evs ++ Succeeded item :: others)) item [Failed now item] =
       [Z.max (baseDelay r)
          (bucketReserve (reports r (evs ++ Succeeded item :: others)) now).1]).
Proof.
  intros Hb Hm Hnot. split; [apply delays_length|]. split; [|split; [|split]].
  - intros i d Hd. by apply delays_lookup.
  - intros i j Hij. split; [by apply backoff_ge_base|].
    split; [apply backoff_mono; [done|lia] | apply backoff_le_max].
  - intros Hw.
    assert (∀ (i : nat) x, delays r item evs !! i = Some x →
              x = backoff r (NumRequeues r item + i)) as Heq.
    { intros i x Hx. apply delays_lookup in Hx as (w & Hwi & ->); [|done].
      apply list_elem_of_lookup_2 in Hwi. apply Hw in Hwi.
      pose proof (backoff_ge_base r (NumRequeues r item + i) Hb Hm). lia. }
    split.
    + intros i j x y Hij Hi Hj. apply Heq in Hi, Hj. subst.
      apply backoff_mono; [done|lia].
    + intros x Hx. apply list_elem_of_lookup in Hx as [k Hk]. apply Heq in Hk. subst.
      split; [by apply backoff_ge_base | apply backoff_le_max].
  - intros others now Hq.
    pose proof (baseDelay_reports r (evs ++ Succeeded item :: others)) as Hb'.
    pose proof (maxDelay_reports r (evs ++ Succeeded item :: others)) as Hm'.
    assert (NumRequeues (reports r (evs ++ Succeeded item :: others)) item = 0%nat) as Hn.
    { rewrite reports_app. cbn [reports]. apply NumRequeues_quiet; [done|].
      rewrite NumRequeues_report. by rewrite decide_True. }
    cbn. rewrite decide_True by done. rewrite Hn, backoff_0; [by rewrite Hb'|lia].
Qed.

End RateLimiterProperties.

Lemma retry_delay_backoff_and_bucket_witness :
  (∀ x, x ∈ controllers.delays samples.limiter samples.idA samples.failures →
     5 * Millisecond ≤ x ≤ 1000 * Second) ∧
  controllers.delays
    (controllers.reports samples.limiter
       (samples.failures ++ [controllers.Succeeded samples.idA]))
    samples.idA [controllers.Failed (30 * Millisecond) samples.idA] = [5 * Millisecond].
Proof.
  destruct (retry_delay_backoff_and_bucket samples.limiter samples.idA samples.failures)
    as (_ & _ & _ & Hquiet & Hreset).
  - by vm_compute.
  - by vm_compute.
  - intros Hin. repeat (apply elem_of_cons in Hin as [Hin|Hin]; [discriminate Hin|]).
    by apply elem_of_nil in Hin.
  - split.
    + apply Hquiet. intros w Hw.
      repeat (apply elem_of_cons in Hw as [->|Hw]; [by vm_compute|]).
      by apply elem_of_nil in Hw.
    + exact (Hreset [] (30 * Millisecond) (Forall_nil_2 _)).
Defined.

(** A bucket of one token refilled at one token per second, with a base of
    5ms and a ceiling of 100ms: the item's second consecutive failure, 5ms
    after the first, finds the bucket empty and is delayed by 995ms, above
    the ceiling, and its third, ten seconds later, by 20ms only; after a
    success, a failure 1ms later is delayed by 1994ms, not by the base. A
    base backoff of 10s above a maximum of 1s, which the command accepts:
    after a success the delay is 1s, not the base. *)
Lemma retry_delay_not_monotone_nor_bounded :
  ¬ (∀ (i j : nat) x y, (i ≤ j)%nat →
       controllers.delays samples.scarceLimiter samples.idA samples.threeFailures !! i = Some x →
       controllers.delays samples.scarceLimiter samples.idA samples.threeFailures !! j = Some y →
       x ≤ y) ∧
  ¬ (∀ x, x ∈ controllers.delays samples.scarceLimiter samples.idA samples.threeFailures →
       x ≤ controllers.maxDelay samples.scarceLimiter) ∧
  ¬ (controllers.delays
       (controllers.reports samples.scarceLimiter
          [controllers.Failed 0 samples.idA; controllers.Failed (5 * Millisecond) samples.idA;
           controllers.Succeeded samples.idA])
       samples.idA [controllers.Failed (6 * Millisecond) samples.idA] =
     [controllers.baseDelay samples.scarceLimiter]) ∧
  ¬ (controllers.delays
       (controllers.reports samples.invertedLimiter
          [controllers.Failed 0 samples.idA; controllers.Succeeded samples.idA])
       samples.idA [controllers.Failed (1 * Second) samples.idA] =
     [controllers.baseDelay samples.invertedLimiter]).
Proof.
  assert (controllers.delays samples.scarceLimiter samples.idA samples.threeFailures =
          [5 * Millisecond; 995 * Millisecond; 20 * Millisecond]) as -> by by vm_compute.
  split; [|split; [|split]].
  - intros H.
    by specialize (H 1%nat 2%nat (995 * Millisecond) (20 * Millisecond)
                     (le_S _ _ (le_n _)) eq_refl eq_refl).
  - intros H. by specialize (H (995 * Millisecond) ltac:(set_solver)).
  - by vm_compute.
  - by vm_compute.
Qed.

(** ** The port allocator *)

Section AllocatorProperties.

Import portallocator.

Lemma taken_true a p : taken a p = true ↔ ∃ h, (p, h) ∈ table a.
Proof.
  unfold taken. rewrite bool_decide_eq_true, list_elem_of_fmap. split.
  - intros ([p' h] & -> & Hin). by exists h.
  - intros [h Hin]. by exists (p, h).
Qed.

Lemma taken_false a p : taken a p = false ↔ ∀ h, (p, h) ∉ table a.
Proof.
  rewrite <-not_true_iff_false, taken_true. split.
  - intros Hno h Hin. apply Hno. by exists h.
  - intros Hno [h Hin]. by apply (Hno h).
Qed.

Lemma elem_of_freePorts a p :
  p ∈ freePorts a ↔ taken a p = false ∧ Contains (pr a) p = true.
Proof.
  unfold freePorts, Ports, Contains. rewrite list_elem_of_filter, elem_of_seqZ.
  rewrite andb_true_iff, Z.leb_le, Z.ltb_lt. tauto.
Qed.

Lemma NoDup_freePorts a : NoDup (freePorts a).
Proof. apply NoDup_filter, NoDup_seqZ. Qed.


Lemma scanLowest_spec a n ps :
  scanLowest a n = Some ps →
  length ps = n ∧ NoDup ps ∧ ∀ p, p ∈ ps → p ∈ freePorts a.
Proof.
  unfold scanLowest. case_decide as Hn; [|done]. intros [= <-]. split; [|split].
  - by apply length_take_le.
  - apply (sublist_NoDup _ (freePorts a)); [apply NoDup_freePorts | apply sublist_take].
  - intros p Hp. by apply (subseteq_take n).
Qed.

Lemma probe_spec a need probes got ps :
  probe a need probes got = Some ps →
  NoDup got → (∀ p, p ∈ got → p ∈ freePorts a) →
  length ps = (need + length got)%nat ∧ NoDup ps ∧ ∀ p, p ∈ ps → p ∈ freePorts a.
Proof.
  revert need got. induction probes as [|c probes IH]; intros need got Hp Hnd Hfree.
  - destruct need; [|done]. injection Hp as <-. split; [|split].
    + by rewrite length_reverse.
    + by rewrite reverse_Permutation.
    + intros p Hin. apply Hfree. by apply elem_of_reverse.
  - destruct need as [|need].
    + injection Hp as <-. split; [|split].
      * by rewrite length_reverse.
      * by rewrite reverse_Permutation.
      * intros p Hin. apply Hfree. by apply elem_of_reverse.
    + cbn in Hp. destruct (Contains (pr a) c && negb (taken a c) && bool_decide (c ∉ got)) eqn:Hc.
      * apply andb_true_iff in Hc as [Hc Hng]. apply andb_true_iff in Hc as [Hin Hnt].
        apply bool_decide_eq_true in Hng. apply negb_true_iff in Hnt.
        apply IH in Hp as (Hlen & Hnd' & Hfree').
        -- split; [cbn in Hlen; lia|done].
        -- by apply NoDup_cons.
        -- intros p [->|Hp']%elem_of_cons; [by apply elem_of_freePorts | by apply Hfree].
      * by apply IH in Hp.
Qed.

(** Whatever the policy, the ports chosen are as many as asked for, distinct
    and free. *)
Lemma choose_spec a n probes ps :
  choose a n probes = Some ps →
  length ps = n ∧ NoDup ps ∧ ∀ p, p ∈ ps → p ∈ freePorts a.
Proof.
  unfold choose. destruct (policy a).
  - apply scanLowest_spec.
  - intros Hp. apply probe_spec in Hp as (Hlen & Hnd & Hfree).
    + split; [cbn in Hlen; lia|done].
    + constructor.
    + intros p Hin. by apply elem_of_nil in Hin.
Qed.



(** A successful allocation hands out [count] distinct ports of the range
    that nobody held, and records them for the caller. *)
Lemma allocate_granted a ident count probes ps a' :
  allocate a ident count probes = (inl ps, a') →
  length ps = Z.to_nat count ∧ NoDup ps ∧
  (∀ p, p ∈ ps → Contains (pr a) p = true ∧ ∀ h, (p, h) ∉ table a) ∧
  table a' = table a ++ ((λ p, (p, HeldBy ident)) <$> ps) ∧ pr a' = pr a ∧ policy a' = policy a.
Proof.
  unfold allocate. destruct (choose a (Z.to_nat count) probes) as [qs|] eqn:Hc; [|done].
  intros [= <- <-]. apply choose_spec in Hc as (Hlen & Hnd & Hfree).
  repeat split; try done.
  - by apply elem_of_freePorts, Hfree.
  - by apply taken_false, elem_of_freePorts, Hfree.
Qed.








(** An allocation keeps every holding there is. *)
Lemma allocate_keeps a ident count probes p h :
  (p, h) ∈ table a → (p, h) ∈ table (allocate a ident count probes).2.
Proof.
  intros Hin. unfold allocate. destruct (choose a (Z.to_nat count) probes); [|done].
  cbn. apply elem_of_app. by left.
Qed.

(** A release keeps the holdings of everybody else. *)
Lemma release_keeps a ident p h :
  (p, h) ∈ table a → h ≠ HeldBy ident → (p, h) ∈ table (release a ident).
Proof. intros Hin Hne. by apply list_elem_of_filter. Qed.

(** A held port is not handed out as long as its holder does not release. *)
Lemma held_not_granted a cs p h :
  (p, h) ∈ table a → (∀ ident, h = HeldBy ident → Release ident ∉ cs) →
  p ∉ granted a cs.
Proof.
  revert a. induction cs as [|c cs IH]; intros a Hin Hrel; [apply not_elem_of_nil|].
  assert (∀ ident, h = HeldBy ident → Release ident ∉ cs) as Hrel'.
  { intros ident Hh. specialize (Hrel ident Hh). by apply not_elem_of_cons in Hrel as [_ ?]. }
  destruct c as [ident count probes|ident]; cbn [granted].
  - pose proof (allocate_keeps a ident count probes p h Hin) as Hin'.
    destruct (allocate a ident count probes) as [[ps|e] a'] eqn:Ha; cbn [fst].
    + apply not_elem_of_app. split.
      * intros Hp. apply allocate_granted in Ha as (_ & _ & Hfree & _).
        by destruct (Hfree _ Hp) as [_ Hno]; destruct (Hno h).
      * apply IH; [|done]. cbn. by rewrite Ha.
    + apply IH; [|done]. cbn. by rewrite Ha.
  - apply IH; [|done]. cbn. apply release_keeps; [done|].
    intros ->. specialize (Hrel ident eq_refl). apply not_elem_of_cons in Hrel as [Hne _]. done.
Qed.

(** C3: an allocator exists only once [SetupRuntimePortAllocator] has
    listed the runtimes and consulted the hook; its table then holds every
    port recorded in a listed runtime's status, for that runtime, and every
    port the hook reserves; and none of these ports is handed out by any
    later sequence of calls, a recorded port as long as its runtime is not
    released and a reserved port ever. *)
Theorem setup_premarks_recorded_and_reserved
    (listRuntimes : result (list AlluxioRuntime)) (range : PortRange) (policyStr : string)
    (getReservedPorts : result (list Z)) (a0 : RuntimePortAllocator) :
  SetupRuntimePortAllocator listRuntimes range policyStr getReservedPorts = Ok a0 →
  ∃ runtimes reserved,
    listRuntimes = Ok runtimes ∧ getReservedPorts = Ok reserved ∧ pr a0 = range ∧
    (∀ rt p, rt ∈ runtimes → p ∈ RecordedPorts (Status rt) →
       (p, HeldBy (Key rt)) ∈ table a0 ∧ taken a0 p = true ∧
       ∀ cs, Release (Key rt) ∉ cs → p ∉ granted a0 cs) ∧
    (∀ p, p ∈ reserved →
       (p, Reserved) ∈ table a0 ∧ taken a0 p = true ∧ ∀ cs, p ∉ granted a0 cs).
Proof.
  unfold SetupRuntimePortAllocator. destruct (ValidateEnum policyStr) as [pol|]; [|done].
  destruct listRuntimes as [runtimes|]; [|done]. destruct getReservedPorts as [reserved|]; [|done].
  intros [= <-]. exists runtimes, reserved. repeat split; try done; cbn [table].
  - apply elem_of_app. left. apply list_elem_of_bind. exists rt. split; [|done].
    by apply list_elem_of_fmap_2'  with (x := p).
  - apply taken_true. exists (HeldBy (Key rt)). cbn [table].
    apply elem_of_app. left. apply list_elem_of_bind. exists rt. split; [|done].
    by apply list_elem_of_fmap_2' with (x := p).
  - intros cs Hrel. apply held_not_granted with (h := HeldBy (Key rt)).
    + cbn [table]. apply elem_of_app. left. apply list_elem_of_bind. exists rt. split; [|done].
      by apply list_elem_of_fmap_2' with (x := p).
    + by intros ident [= <-].
  - apply elem_of_app. right. by apply list_elem_of_fmap_2' with (x := p).
  - apply taken_true. exists Reserved. cbn [table].
    apply elem_of_app. right. by apply list_elem_of_fmap_2' with (x := p).
  - intros cs. apply held_not_granted with (h := Reserved); [|done].
    cbn [table]. apply elem_of_app. right. by apply list_elem_of_fmap_2' with (x := p).
Qed.

End AllocatorProperties.


Lemma setup_premarks_recorded_and_reserved_witness :
  ∃ a0,
    portallocator.SetupRuntimePortAllocator (Ok [samples.runtimeA; samples.runtimeB])
      samples.range "random" (Ok [20009]) = Ok a0 ∧
    (20000 ∉ portallocator.granted a0 samples.afterRestart) ∧
    (20009 ∉ portallocator.granted a0 samples.afterRestart).
Proof.
  eexists. split; [reflexivity|].
  destruct (setup_premarks_recorded_and_reserved (Ok [samples.runtimeA; samples.runtimeB])
              samples.range "random" (Ok [20009]) _ eq_refl)
    as (runtimes & reserved & [= <-] & [= <-] & _ & Hrec & Hres).
  split.
  - apply (Hrec samples.runtimeA 20000).
    + apply list_elem_of_here.
    + apply list_elem_of_here.
    + intros Hin. repeat (apply elem_of_cons in Hin as [Hin|Hin]; [discriminate Hin|]).
      by apply elem_of_nil in Hin.
  - apply (Hres 20009). apply list_elem_of_here.
Defined.

(** * Further properties of the code *)

(** ** Loading the client configuration *)

Section LoadConfigProperties.

Import config.

Lemma length_pos_nonempty (s : string) : (0 <? Z.of_nat (String.length s)) = true ↔ s ≠ "".
Proof.
  destruct s; cbn; split; done.
Qed.

Lemma length_zero_empty (s : string) : (Z.of_nat (String.length s) =? 0) = true ↔ s = "".
Proof.
  destruct s; cbn; split; done.
Qed.

(** X1: a non-empty [--kubeconfig] flag decides alone: the configuration is
    the one read from that file, whatever the environment, the in-cluster
    configuration, the home directory or the current user are. *)
Theorem loadConfig_flag_first (env : Env) (context : string) :
  kubeconfig env ≠ "" →
  loadConfig env context =
    ClientConfig env "" {| ExplicitPath := kubeconfig env; Precedence := [] |} context ∧
  ∀ lookupEnv inCluster user rules,
    loadConfig
      {| kubeconfig := kubeconfig env; LookupEnv := lookupEnv;
         loadInClusterConfig := inCluster; user_Current := user;
         NewDefaultClientConfigLoadingRules := rules; ClientConfig := ClientConfig env |}
      context = loadConfig env context.
Proof.
  intros Hk%length_pos_nonempty. unfold loadConfig, loadConfigWithContext.
  cbn [kubeconfig ClientConfig]. by rewrite Hk.
Qed.

(** X2: with no flag and [KUBECONFIG] unset or empty, an in-cluster
    configuration that loads is the result, and no kubeconfig file is read;
    with [KUBECONFIG] non-empty the in-cluster configuration is not
    consulted, and when it fails to load its error is dropped: the result
    does not depend on which error it was. *)
Theorem loadConfig_in_cluster (env : Env) (context : string) :
  kubeconfig env = "" →
  (∀ c, Getenv env RecommendedConfigPathEnvVar = "" → loadInClusterConfig env = Ok c →
        loadConfig env context = Ok c) ∧
  (∀ r1 r2,
     Getenv env RecommendedConfigPathEnvVar ≠ "" ∨ (failed r1 ∧ failed r2) →
     loadConfig
       {| kubeconfig := kubeconfig env; LookupEnv := LookupEnv env;
          loadInClusterConfig := r1; user_Current := user_Current env;
          NewDefaultClientConfigLoadingRules := NewDefaultClientConfigLoadingRules env;
          ClientConfig := ClientConfig env |} context =
     loadConfig
       {| kubeconfig := kubeconfig env; LookupEnv := LookupEnv env;
          loadInClusterConfig := r2; user_Current := user_Current env;
          NewDefaultClientConfigLoadingRules := NewDefaultClientConfigLoadingRules env;
          ClientConfig := ClientConfig env |} context).
Proof.
  intros Hk. split.
  - intros c He Hc. unfold loadConfig. rewrite Hk. cbn [String.length Z.of_nat Z.ltb Z.compare].
    apply length_zero_empty in He. by rewrite He, Hc.
  - intros r1 r2 H. unfold loadConfig, Getenv. cbn [kubeconfig LookupEnv loadInClusterConfig].
    rewrite Hk. cbn [String.length Z.of_nat Z.ltb Z.compare].
    fold (Getenv env RecommendedConfigPathEnvVar).
    destruct (Z.of_nat (String.length (Getenv env RecommendedConfigPathEnvVar)) =? 0) eqn:He; [|done].
    apply length_zero_empty in He. destruct H as [H|[[e1 ->] [e2 ->]]]; [done|].
    reflexivity.
Qed.

(** A string without separator is one path element. *)
Lemma splitSlash_noSlash (c : string) : noSlash c = true → splitSlash c = [c].
Proof.
  induction c as [|a c IH]; [done|]. cbn [noSlash splitSlash].
  intros [Ha Hc]%andb_true_iff.
  apply negb_true_iff in Ha. rewrite Ha, (IH Hc). done.
Qed.

Lemma splitSlash_app (c s : string) :
  noSlash c = true → splitSlash (c +:+ "/" +:+ s) = c :: splitSlash s.
Proof.
  induction c as [|a c IH]; [done|]. cbn [noSlash].
  intros [Ha Hc]%andb_true_iff. apply negb_true_iff in Ha.
  change (String a c +:+ "/" +:+ s) with (String a (c +:+ "/" +:+ s)).
  cbn [splitSlash]. by rewrite Ha, (IH Hc).
Qed.

Lemma splitSlash_concat (c : string) (cs : list string) :
  Forall plainElement (c :: cs) → splitSlash (String.concat "/" (c :: cs)) = c :: cs.
Proof.
  revert c. induction cs as [|d cs IH]; intros c [Hc Hcs]%Forall_cons.
  - apply splitSlash_noSlash, Hc.
  - change (String.concat "/" (c :: d :: cs)) with (c +:+ "/" +:+ String.concat "/" (d :: cs)).
    rewrite splitSlash_app by apply Hc. by rewrite IH.
Qed.

(** [filepath.Clean] keeps plain elements, in order. *)
Lemma cleanStep_plain (rooted : bool) (out cs : list string) :
  Forall plainElement cs → foldl (cleanStep rooted) out cs = reverse cs ++ out.
Proof.
  revert out. induction cs as [|c cs IH]; intros out Hcs; [done|].
  apply Forall_cons in Hcs as [(Hne & Hdot & Hdd & _) Hcs]. cbn [foldl].
  rewrite IH by done. rewrite reverse_cons, <- app_assoc. f_equal.
  unfold cleanStep. rewrite decide_False by (by intros [?|?]).
  by rewrite decide_False.
Qed.

Lemma Clean_absolute (c : string) (cs : list string) :
  Forall plainElement (c :: cs) →
  Clean ("/" +:+ String.concat "/" (c :: cs)) = "/" +:+ String.concat "/" (c :: cs).
Proof.
  intros Hcs. unfold Clean.
  change (isRooted ("/" +:+ String.concat "/" (c :: cs))) with true.
  change (splitSlash ("/" +:+ String.concat "/" (c :: cs)))
    with ("" :: splitSlash (String.concat "/" (c :: cs))).
  rewrite splitSlash_concat by done.
  change (foldl (cleanStep true) [] ("" :: c :: cs))
    with (foldl (cleanStep true) [] (c :: cs)).
  rewrite cleanStep_plain by done. by rewrite app_nil_r, reverse_involutive.
Qed.

Lemma append_assoc (a b c : string) : (a +:+ b) +:+ c = a +:+ b +:+ c.
Proof.
  induction a as [|x a IH]; [done|].
  change (String x ((a +:+ b) +:+ c) = String x (a +:+ b +:+ c)). by rewrite IH.
Qed.

Lemma concat_slash_app (c : string) (cs ds : list string) :
  ds ≠ [] →
  String.concat "/" (c :: cs) +:+ "/" +:+ String.concat "/" ds =
  String.concat "/" ((c :: cs) ++ ds).
Proof.
  intros Hds. revert c. induction cs as [|d cs IH]; intros c.
  - destruct ds; [done|]. done.
  - change (String.concat "/" (c :: d :: cs)) with (c +:+ "/" +:+ String.concat "/" (d :: cs)).
    change (String.concat "/" ((c :: d :: cs) ++ ds))
      with (c +:+ "/" +:+ String.concat "/" ((d :: cs) ++ ds)).
    rewrite <- IH. by rewrite append_assoc.
Qed.

(** [filepath.Join] of an absolute home directory made of plain elements
    with [.kube] and [config]: the two are added as further elements. *)
Lemma Join3_absolute_home (cs : list string) :
  Forall plainElement cs →
  filepath_Join3 ("/" +:+ String.concat "/" cs) RecommendedHomeDir RecommendedFileName =
  "/" +:+ String.concat "/" (cs ++ [RecommendedHomeDir; RecommendedFileName]).
Proof.
  intros Hcs. destruct cs as [|c cs]; [by vm_compute|].
  unfold filepath_Join3, filepath_Join. rewrite decide_False by done.
  assert (Forall plainElement [RecommendedHomeDir; RecommendedFileName]) as Hk.
  { repeat constructor; done. }
  change ((c :: cs) ++ [RecommendedHomeDir; RecommendedFileName])
    with (c :: (cs ++ [RecommendedHomeDir; RecommendedFileName])).
  rewrite <- (Clean_absolute c (cs ++ [RecommendedHomeDir; RecommendedFileName]))
    by (rewrite app_comm_cons; by apply Forall_app).
  f_equal. rewrite app_comm_cons, <- concat_slash_app by done.
  change (String.concat "/" ["/" +:+ String.concat "/" (c :: cs);
                             RecommendedHomeDir; RecommendedFileName])
    with (("/" +:+ String.concat "/" (c :: cs)) +:+ "/" +:+
          String.concat "/" [RecommendedHomeDir; RecommendedFileName]).
  by rewrite append_assoc.
Qed.

(** X3: when the default loading rules are reached (no flag, and
    [KUBECONFIG] non-empty or no in-cluster configuration), the current user
    is looked up only if [HOME] is unset: with [HOME] set the rules are used
    as they are; with [HOME] unset, a failing lookup is the error returned,
    wrapped, and no file is read, and a successful one adds one path after
    the default paths, which are all kept in order: [filepath.Join] of the
    user's home directory, [.kube] and [config]. For an absolute home
    directory of plain elements, [/] itself included, that path is the
    home directory's elements followed by [.kube] and [config]; for an
    empty home directory it is the relative path [.kube/config]. *)
Theorem loadConfig_default_rules (env : Env) (context : string) :
  kubeconfig env = "" →
  Getenv env RecommendedConfigPathEnvVar ≠ "" ∨ failed (loadInClusterConfig env) →
  (∀ home, LookupEnv env "HOME" = Some home →
     loadConfig env context =
       ClientConfig env "" (NewDefaultClientConfigLoadingRules env) context) ∧
  (∀ err, LookupEnv env "HOME" = None → user_Current env = Err err →
     loadConfig env context = Err (withMessage err "could not get current user")) ∧
  (∀ u, LookupEnv env "HOME" = None → user_Current env = Ok u →
     ∃ rules,
       loadConfig env context = ClientConfig env "" rules context ∧
       ExplicitPath rules = ExplicitPath (NewDefaultClientConfigLoadingRules env) ∧
       Precedence rules =
         Precedence (NewDefaultClientConfigLoadingRules env) ++
           [filepath_Join [HomeDir u; ".kube"; "config"]] ∧
       (∀ cs, Forall plainElement cs → HomeDir u = "/" +:+ String.concat "/" cs →
          Precedence rules =
            Precedence (NewDefaultClientConfigLoadingRules env) ++
              ["/" +:+ String.concat "/" (cs ++ [".kube"; "config"])]) ∧
       (HomeDir u = "" →
          Precedence rules =
            Precedence (NewDefaultClientConfigLoadingRules env) ++ [".kube/config"])).
Proof.
  intros Hk Hreach.
  assert (∀ X : result Config,
            (if Z.of_nat (String.length (Getenv env RecommendedConfigPathEnvVar)) =? 0
             then match loadInClusterConfig env with Ok c => Ok c | Err _ => X end
             else X) = X) as Hfall.
  { intros X.
    destruct (Z.of_nat (String.length (Getenv env RecommendedConfigPathEnvVar)) =? 0) eqn:He; [|done].
    apply length_zero_empty in He. destruct Hreach as [H|[e ->]]; done. }
  unfold loadConfig, loadConfigWithContext. rewrite Hk.
  cbn [String.length Z.of_nat Z.ltb Z.compare]. rewrite Hfall.
  split; [|split].
  - by intros home ->.
  - by intros err -> ->.
  - intros u -> ->. eexists. split; [reflexivity|]. split; [reflexivity|].
    cbn [Precedence]. split; [reflexivity|]. split.
    + intros cs Hcs ->. by rewrite Join3_absolute_home.
    + by intros ->.
Qed.

(** What the two defaults leave: neither a zero QPS nor a zero Burst. *)
Lemma defaults_nonzero (env : Env) (context : string) (cfg : Config) :
  GetConfigWithContext env context = Ok cfg →
  SFeqb (QPS cfg) f32_zero = false ∧ Burst cfg ≠ 0.
Proof.
  unfold GetConfigWithContext. destruct (loadConfig env context) as [cfg0|]; [|done].
  intros [= <-]. destruct cfg0 as [h q b]. cbn [QPS Burst Host].
  destruct (SFeqb q f32_zero) eqn:Hq; cbn [QPS Burst Host].
  - destruct (Z.eqb_spec b 0); cbn [QPS Burst Host]; split; done.
  - destruct (Z.eqb_spec b 0); cbn [QPS Burst Host]; split; done.
Qed.

(** X4: a configuration returned by [GetConfigWithContext] never has a QPS
    equal to zero nor a zero Burst. *)
Theorem GetConfigWithContext_never_zero (env : Env) (context : string) (cfg : Config) :
  GetConfigWithContext env context = Ok cfg →
  SFeqb (QPS cfg) f32_zero = false ∧ Burst cfg ≠ 0.
Proof.
  unfold GetConfigWithContext. destruct (loadConfig env context) as [[h q b]|]; [|done].
  cbn [QPS Burst Host]. intros [= <-].
  destruct (SFeqb q f32_zero) eqn:Hq; cbn [QPS Burst Host];
    destruct (Z.eqb_spec b 0); cbn [QPS Burst Host]; split; done.
Qed.

(** X5: applying the defaults is idempotent: a configuration that
    [GetConfigWithContext] returned, loaded again, is returned unchanged. *)
Theorem GetConfigWithContext_idempotent (env env' : Env) (context context' : string)
    (cfg : Config) :
  GetConfigWithContext env context = Ok cfg →
  loadConfig env' context' = Ok cfg →
  GetConfigWithContext env' context' = Ok cfg.
Proof.
  intros [Hq Hb]%defaults_nonzero Hload.
  unfold GetConfigWithContext. rewrite Hload, Hq.
  by destruct (Z.eqb_spec (Burst cfg) 0).
Qed.

(** The deferred log call of [loadConfig] is made only when loading fails. *)
Lemma loadConfigLog_ok (env : Env) (context : string) (cfg : Config) :
  loadConfig env context = Ok cfg → loadConfigLog env context = [].
Proof.
  intros Hl. unfold loadConfigLog. rewrite Hl. repeat case_match; done.
Qed.

(** What it logs when loading fails: the in-cluster error, if the in-cluster
    configuration was tried. *)
Lemma loadConfigLog_err (env : Env) (context : string) (err : error) :
  loadConfig env context = Err err →
  loadConfigLog env context =
    match loadInClusterConfig env with
    | Err e =>
        if decide (kubeconfig env = "" ∧ Getenv env RecommendedConfigPathEnvVar = "")
        then [LogError e "unable to load in-cluster config"] else []
    | Ok _ => []
    end.
Proof.
  intros Hl. unfold loadConfigLog. rewrite Hl.
  destruct (0 <? Z.of_nat (String.length (kubeconfig env))) eqn:Hk.
  - apply length_pos_nonempty in Hk. destruct (loadInClusterConfig env); [done|].
    rewrite decide_False; [done|]. by intros [? _].
  - assert (kubeconfig env = "") as Hk'.
    { destruct (kubeconfig env); [done|]. discriminate Hk. }
    destruct (Z.of_nat (String.length (Getenv env RecommendedConfigPathEnvVar)) =? 0) eqn:He.
    + apply length_zero_empty in He. destruct (loadInClusterConfig env); [done|].
      by rewrite decide_True.
    + destruct (loadInClusterConfig env); [done|]. rewrite decide_False; [done|].
      intros [_ Hg]. apply length_zero_empty in Hg. congruence.
Qed.

Lemma GetConfig_loadConfig (env : Env) :
  match GetConfig env with
  | Ok _ => ∃ cfg, loadConfig env "" = Ok cfg
  | Err err => loadConfig env "" = Err err
  end.
Proof.
  unfold GetConfig, GetConfigWithContext. destruct (loadConfig env ""); [by eexists|done].
Qed.

(** The three ways [GetConfigOrDie] ends, with what it has logged. *)
Lemma GetConfigOrDie_cases (env : Env) :
  (∃ cfg, GetConfig env = Ok cfg ∧ GetConfigOrDie env = ([], Continue cfg)) ∨
  (∃ err, GetConfig env = Err err ∧
     GetConfigOrDie env = ([LogError err "unable to get kubeconfig"], Exit 1)) ∨
  (∃ err e, GetConfig env = Err err ∧
     GetConfigOrDie env =
       ([LogError e "unable to load in-cluster config";
         LogError err "unable to get kubeconfig"], Exit 1)).
Proof.
  pose proof (GetConfig_loadConfig env) as Hl. unfold GetConfigOrDie.
  destruct (GetConfig env) as [cfg|err].
  - left. destruct Hl as [cfg0 Hl]. rewrite (loadConfigLog_ok _ _ _ Hl). by exists cfg.
  - right. rewrite (loadConfigLog_err _ _ _ Hl).
    destruct (loadInClusterConfig env) as [|e]; [left; by exists err|].
    case_decide; [right; by exists err, e | left; by exists err].
Qed.

(** X6: [GetConfigOrDie] ends the process only with status 1, and only
    after logging the error [GetConfig] returned as its last call; before
    it, the deferred call of [loadConfig] has logged the error of the
    in-cluster configuration if that was tried (no flag, [KUBECONFIG] unset
    or empty) and failed, and nothing else is logged. When it carries on it
    has logged nothing and holds the configuration of [GetConfig], whose QPS
    and Burst are not zero. *)
Theorem GetConfigOrDie_outcomes (env : Env) :
  (∀ code, (GetConfigOrDie env).2 = Exit code →
     code = 1 ∧ ∃ err, GetConfig env = Err err ∧
       (GetConfigOrDie env).1 =
         match loadInClusterConfig env with
         | Err e =>
             if decide (kubeconfig env = "" ∧ Getenv env RecommendedConfigPathEnvVar = "")
             then [LogError e "unable to load in-cluster config"] else []
         | Ok _ => []
         end ++ [LogError err "unable to get kubeconfig"]) ∧
  (∀ cfg, (GetConfigOrDie env).2 = Continue cfg →
     GetConfig env = Ok cfg ∧ (GetConfigOrDie env).1 = [] ∧
     SFeqb (QPS cfg) f32_zero = false ∧ Burst cfg ≠ 0) ∧
  (∀ err, GetConfig env = Err err → (GetConfigOrDie env).2 = Exit 1).
Proof.
  pose proof (GetConfig_loadConfig env) as Hl. unfold GetConfigOrDie.
  destruct (GetConfig env) as [cfg|err] eqn:Hg.
  - destruct Hl as [cfg0 Hl]. rewrite (loadConfigLog_ok _ _ _ Hl). cbn.
    split; [done|]. split; [|done]. intros cfg' [= <-].
    pose proof (defaults_nonzero _ _ _ Hg) as [Hq Hb]. by repeat split.
  - rewrite (loadConfigLog_err _ _ _ Hl). split; [|done].
    intros code Hc. split.
    + destruct (loadInClusterConfig env); [|case_decide]; by injection Hc as <-.
    + exists err. split; [done|].
      destruct (loadInClusterConfig env); [|case_decide]; done.
Qed.

(** ** Registering the kubeconfig flag *)

(** X7: [RegisterFlags] never defines a flag twice, so it never panics;
    afterwards the flag [kubeconfig] is defined, every flag that was
    defined keeps its value, and the package variable holds the value of
    the flag; when the flag was already there the variable is only a copy
    of its value and its binding is left as it was. *)
Theorem RegisterFlags_safe (commandLine : FlagSet) (fs : option FlagSet)
    (kubeconfig0 : string) (bound0 : bool) :
  ∃ reg, RegisterFlags commandLine fs kubeconfig0 bound0 = Some reg ∧
    Lookup (flagSet reg) KubeconfigFlagName = Some (kubeconfigVar reg) ∧
    (∀ name value, Lookup (default commandLine fs) name = Some value →
       Lookup (flagSet reg) name = Some value) ∧
    (∀ name, name ≠ KubeconfigFlagName →
       Lookup (flagSet reg) name = Lookup (default commandLine fs) name) ∧
    (∀ value, Lookup (default commandLine fs) KubeconfigFlagName = Some value →
       flagSet reg = default commandLine fs ∧ kubeconfigVar reg = value ∧ boundVar reg = bound0) ∧
    (Lookup (default commandLine fs) KubeconfigFlagName = None →
       kubeconfigVar reg = "" ∧ boundVar reg = true).
Proof.
  unfold RegisterFlags, StringVar, Lookup.
  replace (match fs with None => commandLine | Some fs0 => fs0 end)
    with (default commandLine fs) by by destruct fs.
  destruct (formal (default commandLine fs) !! KubeconfigFlagName) as [value|] eqn:Hl.
  - eexists. split; [reflexivity|]. cbn [flagSet kubeconfigVar boundVar].
    split; [done|]. split; [done|]. split; [done|]. split; [|done].
    by intros v [= <-].
  - eexists. split; [reflexivity|]. cbn [flagSet kubeconfigVar boundVar formal].
    split; [by rewrite lookup_insert_eq|]. split; [|split; [|split; [done|done]]].
    + intros name value Hn. rewrite lookup_insert_ne; [done|]. intros <-. by rewrite Hl in Hn.
    + intros name Hn. by rewrite lookup_insert_ne.
Qed.

(** X8: registering again on the set a first call left changes nothing:
    neither the set nor the variable nor its binding. *)
Theorem RegisterFlags_idempotent (commandLine : FlagSet) (fs : option FlagSet)
    (kubeconfig0 : string) (bound0 : bool) (reg : Registered) :
  RegisterFlags commandLine fs kubeconfig0 bound0 = Some reg →
  RegisterFlags commandLine (Some (flagSet reg)) (kubeconfigVar reg) (boundVar reg) = Some reg ∧
  RegisterFlags (flagSet reg) None (kubeconfigVar reg) (boundVar reg) = Some reg.
Proof.
  unfold RegisterFlags, StringVar, Lookup.
  destruct (formal (default commandLine fs) !! KubeconfigFlagName) as [value|] eqn:Hl.
  - replace (match fs with None => commandLine | Some fs0 => fs0 end)
      with (default commandLine fs) by by destruct fs.
    rewrite Hl. intros [= <-]. cbn [flagSet kubeconfigVar boundVar]. by rewrite Hl.
  - replace (match fs with None => commandLine | Some fs0 => fs0 end)
      with (default commandLine fs) by by destruct fs.
    rewrite Hl. intros [= <-]. cbn [flagSet kubeconfigVar boundVar formal].
    by rewrite lookup_insert_eq.
Qed.

End LoadConfigProperties.

(** ** The entry point of the AlluxioRuntime controller, continued *)

Section HandleOrder.

Context {Engine Client Scheme Manager : Type}.
Variable GetConfigOrDieWithQPSAndBurst : float32 -> Z -> option config.Config.
Variable NewManager : config.Config -> app.ManagerOptions -> result Manager.
Variable GetClient : Manager -> Client.
Variable GetScheme : Manager -> Scheme.
Variable Start : Manager -> option error.
Variable ParseDuration : string -> result Duration.
Variable ParsePortRange : string -> result portallocator.PortRange.
Variable Complete :
  Manager -> controller.Options -> @alluxio.RuntimeReconciler Engine Client Scheme -> option error.
Variable GetReservedPorts : Client -> result (list Z).
Variable SetupRuntimePortAllocator :
  Client -> portallocator.PortRange -> string -> (Client -> result (list Z)) -> option error.

Local Abbreviation handle :=
  (app.handle GetConfigOrDieWithQPSAndBurst NewManager GetClient GetScheme Start ParseDuration
     ParsePortRange Complete GetReservedPorts SetupRuntimePortAllocator).

Ltac run_unfold Hh :=
  unfold app.handle, app.orExit, app.exitIfError, alluxio.SetupWithManager in Hh;
  unfold mbind, Proc_bind, mret, Proc_ret, emit, os_Exit in Hh.

(** Splits on the outcome of each call [handle] makes, in order. *)
Ltac run_cases Hh :=
  run_unfold Hh;
  repeat match type of Hh with
  | context [match ?x with _ => _ end] =>
      lazymatch x with
      | GetConfigOrDieWithQPSAndBurst _ _ => idtac
      | NewManager _ _ => idtac
      | ParseDuration _ => idtac
      | ParsePortRange _ => idtac
      | Complete _ _ _ => idtac
      | SetupRuntimePortAllocator _ _ _ _ => idtac
      | Start _ => idtac
      end; destruct x eqn:?; cbn in Hh
  end;
  injection Hh as <- <-.

(** Finds a call in a trace that is written out. *)
Ltac in_trace := repeat first [apply list_elem_of_here | apply list_elem_of_further].

(** Goes through the ways a written-out trace splits around one call. *)
Ltac split_trace pre :=
  repeat (destruct pre as [|? pre]; simplify_eq/=).

(** The controller options [handle] builds once both durations are parsed. *)
Local Abbreviation optionsOf v d1 d2 :=
  {| controller.MaxConcurrentReconciles := app.maxConcurrentReconciles v;
     controller.RateLimiter :=
       controllers.NewFluidControllerRateLimiter d1 d2
         (app.controllerWorkqueueQPS v) (app.controllerWorkqueueBurst v) |}.

(** Everything [handle] does before it starts the manager went well. *)
Local Abbreviation ready v mgr :=
  (∃ cfg d1 d2 pr,
     GetConfigOrDieWithQPSAndBurst (app.kubeClientQPS v) (app.kubeClientBurst v) = Some cfg ∧
     NewManager cfg (app.managerOptions v) = Ok mgr ∧
     ParseDuration (app.controllerWorkqueueDefaultSyncBackoffStr v) = Ok d1 ∧
     ParseDuration (app.controllerWorkqueueMaxSyncBackoffStr v) = Ok d2 ∧
     Complete mgr (optionsOf v d1 d2)
       (alluxio.NewRuntimeReconciler (GetClient mgr) (GetScheme mgr)) = None ∧
     ParsePortRange (app.portRange v) = Ok pr ∧
     SetupRuntimePortAllocator (GetClient mgr) pr (app.portAllocatePolicy v) GetReservedPorts
       = None).

(** X9: [handle] ends the process with no status other than 1, and, once
    the client configuration is there, only after logging an error as its
    last call. *)
Theorem handle_exit_status (v : app.Vars) (code : Z) :
  (handle v).2 = Exit code →
  code = 1 ∧
  (GetConfigOrDieWithQPSAndBurst (app.kubeClientQPS v) (app.kubeClientBurst v) = None ∨
   ∃ err msg, last (handle v).1 = Some (app.LogError err msg)).
Proof.
  destruct (handle v) as [t o] eqn:Hh. cbn [fst snd]. run_cases Hh; intros [= <-].
  all: split; [done|]. all: first [by left | right; by eexists _, _].
Qed.

(** X10: the manager is started exactly when the client configuration, the
    manager, both durations, the registration of the reconciler, the port
    range and the port allocator, set up on the manager's client with the
    policy flag and the Alluxio hook, all went well; and [handle] returns,
    instead of ending the process, exactly when in addition the manager's
    [Start] returns no error. *)
Theorem handle_starts_iff_ready (v : app.Vars) :
  (app.CallStart ∈ (handle v).1 ↔ ∃ mgr, ready v mgr) ∧
  ((handle v).2 = Continue tt ↔ ∃ mgr, ready v mgr ∧ Start mgr = None).
Proof.
  split; split.
  - destruct (handle v) as [t o] eqn:Hh. cbn [fst]. run_cases Hh; intros Hin.
    all: try (repeat (apply elem_of_cons in Hin as [Hin|Hin]; [discriminate Hin|]);
              by apply elem_of_nil in Hin).
    all: eexists _, _, _, _, _; repeat split; eassumption.
  - intros (mgr & cfg & d1 & d2 & pr & Hc & Hm & H1 & H2 & Hr & Hp & Ha).
    destruct (handle v) as [t o] eqn:Hh. cbn [fst]. run_unfold Hh.
    rewrite Hc in Hh; cbn in Hh. rewrite Hm in Hh; cbn in Hh.
    rewrite H1 in Hh; cbn in Hh. rewrite H2 in Hh; cbn in Hh.
    rewrite Hr in Hh; cbn in Hh. rewrite Hp in Hh; cbn in Hh. rewrite Ha in Hh; cbn in Hh.
    destruct (Start mgr); cbn in Hh; injection Hh as <- <-; in_trace.
  - destruct (handle v) as [t o] eqn:Hh. cbn [snd]. run_cases Hh; intros [=].
    eexists. split; [eexists _, _, _, _; repeat split; eassumption | done].
  - intros (mgr & (cfg & d1 & d2 & pr & Hc & Hm & H1 & H2 & Hr & Hp & Ha) & Hs).
    destruct (handle v) as [t o] eqn:Hh. cbn [snd]. run_unfold Hh.
    rewrite Hc in Hh; cbn in Hh. rewrite Hm in Hh; cbn in Hh.
    rewrite H1 in Hh; cbn in Hh. rewrite H2 in Hh; cbn in Hh.
    rewrite Hr in Hh; cbn in Hh. rewrite Hp in Hh; cbn in Hh. rewrite Ha in Hh; cbn in Hh.
    rewrite Hs in Hh; cbn in Hh. by injection Hh as <- <-.
Qed.

(** X11: the calls of [handle] come in one order: the reconciler is
    registered only after the manager was asked for, the port allocator is
    set up only after the reconciler was registered, and the manager is
    started only after the port allocator was set up, and at most once. *)
Theorem handle_call_order (v : app.Vars) (pre post : list app.Event) :
  (∀ options, (handle v).1 = pre ++ app.CallSetupWithManager options :: post →
     ∃ mo, app.CallNewManager mo ∈ pre) ∧
  (∀ pr policy, (handle v).1 = pre ++ app.CallSetupRuntimePortAllocator pr policy :: post →
     ∃ options, app.CallSetupWithManager options ∈ pre) ∧
  ((handle v).1 = pre ++ app.CallStart :: post →
     (∃ pr policy, app.CallSetupRuntimePortAllocator pr policy ∈ pre) ∧
     (app.CallStart ∉ pre) ∧ (app.CallStart ∉ post)).
Proof.
  split; [|split].
  - intros options H. destruct (handle v) as [t o] eqn:Hh. cbn [fst] in H. run_cases Hh.
    all: split_trace pre.
    all: eexists; in_trace.
  - intros pr policy H. destruct (handle v) as [t o] eqn:Hh. cbn [fst] in H. run_cases Hh.
    all: split_trace pre.
    all: eexists; in_trace.
  - intros H. destruct (handle v) as [t o] eqn:Hh. cbn [fst] in H. run_cases Hh.
    all: split_trace pre.
    all: split; [eexists _, _; in_trace|].
    all: split; intros Hin;
      repeat (apply elem_of_cons in Hin as [Hin|Hin]; [discriminate Hin|]);
      by apply elem_of_nil in Hin.
Qed.

(** X12: the port allocator is only ever set up with the range that
    [net.ParsePortRange] returns for the flag [runtime-node-port-range] and
    with the policy flag as it is; by default these are ["20000-25000"] and
    ["random"]. *)
Theorem handle_port_allocator_arguments (v : app.Vars) :
  (∀ pr policy, app.CallSetupRuntimePortAllocator pr policy ∈ (handle v).1 →
     ParsePortRange (app.portRange v) = Ok pr ∧ policy = app.portAllocatePolicy v) ∧
  app.portRange app.init = "20000-25000" ∧ app.portAllocatePolicy app.init = "random" ∧
  ∀ s p, ∃ v',
    app.ParseFlags v [("runtime-node-port-range", app.StringValue s);
                      ("port-allocate-policy", app.StringValue p)] = Ok v' ∧
    app.portRange v' = s ∧ app.portAllocatePolicy v' = p.
Proof.
  split; [|split; [done|split; [done|]]].
  - intros pr policy. destruct (handle v) as [t o] eqn:Hh. cbn [fst]. run_cases Hh; intros Hin.
    all: repeat (apply elem_of_cons in Hin as [Hin|Hin];
                 [first [discriminate Hin | by injection Hin as -> ->]|]).
    all: by apply elem_of_nil in Hin.
  - intros s p. destruct v. eexists. split; [reflexivity|]. by split.
Qed.

End HandleOrder.

(** ** The flags of the AlluxioRuntime controller *)

(** X13: the flags registered by [init] have distinct names, so none is
    defined twice, and each is bound to a variable of its own: registering
    the defaults leaves every flag's default in its variable, and storing
    into two different flags gives the same variables in either order. *)
Theorem flags_independent :
  NoDup (app.Name <$> app.alluxioCmd_Flags) ∧
  (∀ f, f ∈ app.alluxioCmd_Flags → app.Store f (app.DefValue f) app.init = Some app.init) ∧
  (∀ f g x y v, f ∈ app.alluxioCmd_Flags → g ∈ app.alluxioCmd_Flags →
     app.Name f ≠ app.Name g →
     app.Store f x v ≫= app.Store g y = app.Store g y v ≫= app.Store f x).
Proof.
  split; [|split].
  - apply (bool_decide_unpack _). by vm_compute.
  - intros f Hf. repeat (apply elem_of_cons in Hf as [->|Hf]; [reflexivity|]).
    by apply elem_of_nil in Hf.
  - intros f g x y v Hf Hg Hne. destruct v.
    repeat (apply elem_of_cons in Hf as [->|Hf]);
      try (by apply elem_of_nil in Hf);
      repeat (apply elem_of_cons in Hg as [->|Hg]);
      try (by apply elem_of_nil in Hg);
      try (by destruct Hne);
      by destruct x, y.
Qed.

(** ** The reconciler, continued *)

(** X14: when loading the runtime fails, for whatever reason, [Reconcile]
    gives back the reconciler unchanged without calling the generic
    reconciler, never asks for a delayed or explicit requeue, and returns an
    error exactly when the failure is not NotFound. *)
Theorem Reconcile_load_failure_frame {Engine Client Scheme : Type}
    (common : alluxio.Constants)
    (getRuntime : @alluxio.RuntimeReconciler Engine Client Scheme ->
                  alluxio.ReconcileRequestContext -> result AlluxioRuntime)
    (ReconcileInternal other :
       alluxio.ReconcileRequestContext -> @alluxio.RuntimeReconciler Engine Client Scheme ->
       (ctrl.Result * option error) * @alluxio.RuntimeReconciler Engine Client Scheme)
    (r : @alluxio.RuntimeReconciler Engine Client Scheme) (req : NamespacedName) (err : error) :
  getRuntime r (alluxio.requestContext common req) = Err err →
  let out := alluxio.Reconcile common getRuntime ReconcileInternal r req in
  out.2 = r ∧
  out.1.1 = ctrl.emptyResult ∧
  (out.1.2 = None ↔ utils.IsNotFound err = true) ∧
  alluxio.Reconcile common getRuntime other r req = out.
Proof.
  intros Hget out. subst out. unfold alluxio.Reconcile. rewrite Hget.
  cbn [utils.IgnoreNotFound]. destruct (utils.IsNotFound err); cbn; repeat split; done.
Qed.

(** ** The entry point of the dataset controller *)

Section DatasetHandle.

Context {Manager : Type}.
Variable IsBatchV1CronJobSupported : bool.
Variable JobPolicy : string.
Variable CronPolicy : string.
Variable GetConfigOrDieWithQPSAndBurst : float32 -> Z -> option config.Config.
Variable NewManager : config.Config -> datasetapp.ManagerOptions -> result Manager.
Variable Start : Manager -> option error.
Variable ParseDuration : string -> result Duration.
Variable SetupWithManager :
  datasetapp.Reconciler -> Manager -> controller.Options -> option error.

Local Abbreviation handle enabled dataFlow :=
  (datasetapp.handle enabled dataFlow IsBatchV1CronJobSupported JobPolicy CronPolicy
     GetConfigOrDieWithQPSAndBurst NewManager Start ParseDuration SetupWithManager).

(** Splits on the outcome of each call the dataset [handle] makes. *)
Ltac dataset_cases Hh enabled dataFlow :=
  unfold datasetapp.handle, datasetapp.registerIf, datasetapp.orExit,
    datasetapp.exitIfError in Hh;
  unfold mbind, Proc_bind, mret, Proc_ret, emit, os_Exit in Hh;
  cbn in Hh;
  repeat match type of Hh with
  | context [match ?x with _ => _ end] =>
      lazymatch x with
      | GetConfigOrDieWithQPSAndBurst _ _ => idtac
      | NewManager _ _ => idtac
      | ParseDuration _ => idtac
      | SetupWithManager _ _ _ => idtac
      | Start _ => idtac
      | enabled _ => idtac
      | dataFlow => idtac
      end; destruct x eqn:?; cbn in Hh
  end;
  injection Hh as <- <-.

(** X15: every reconciler the dataset controller registers gets the same
    controller options: the worker count of the flags and a rate limiter
    made from the two parsed backoff durations and the workqueue flags. *)
Theorem dataset_handle_shared_options (enabled : string -> bool) (dataFlow : bool)
    (v : datasetapp.Vars) (r : datasetapp.Reconciler) (options : controller.Options) :
  datasetapp.CallSetupWithManager r options ∈ (handle enabled dataFlow v).1 →
  ∃ d1 d2,
    ParseDuration (datasetapp.controllerWorkqueueDefaultSyncBackoffStr v) = Ok d1 ∧
    ParseDuration (datasetapp.controllerWorkqueueMaxSyncBackoffStr v) = Ok d2 ∧
    options =
      {| controller.MaxConcurrentReconciles := datasetapp.maxConcurrentReconciles v;
         controller.RateLimiter :=
           controllers.NewFluidControllerRateLimiter d1 d2
             (datasetapp.controllerWorkqueueQPS v) (datasetapp.controllerWorkqueueBurst v) |}.
Proof.
  destruct (handle enabled dataFlow v) as [t o] eqn:Hh. cbn [fst].
  dataset_cases Hh enabled dataFlow; intros Hin.
  all: repeat (apply elem_of_cons in Hin as [Hin|Hin];
               [first [discriminate Hin | injection Hin as -> ->; by eauto]|]).
  all: by apply elem_of_nil in Hin.
Qed.

(** X16: the dataset controller registers its reconcilers in one order,
    Dataset first and always, then DataLoad, DataBackup, DataMigrate and
    DataProcess as the discovery enables them, then DataFlow if enabled: what
    is registered is always a prefix of that list, so a disabled reconciler
    is never registered, and it is the whole list when the manager is
    started. The process is ended with no status other than 1. *)
Theorem dataset_handle_registrations (enabled : string -> bool) (dataFlow : bool)
    (v : datasetapp.Vars) :
  datasetapp.registered (handle enabled dataFlow v).1
    `prefix_of` datasetapp.enabledReconcilers enabled dataFlow ∧
  (datasetapp.CallStart ∈ (handle enabled dataFlow v).1 →
   datasetapp.registered (handle enabled dataFlow v).1 =
     datasetapp.enabledReconcilers enabled dataFlow) ∧
  (∀ code, (handle enabled dataFlow v).2 = Exit code → code = 1).
Proof.
  destruct (handle enabled dataFlow v) as [t o] eqn:Hh. cbn [fst snd].
  unfold datasetapp.enabledReconcilers.
  dataset_cases Hh enabled dataFlow.
  all: split; [cbn; eexists; reflexivity|].
  all: split; [|by intros code [= <-]].
  all: intros Hin; try reflexivity.
  all: repeat (apply elem_of_cons in Hin as [Hin|Hin]; [discriminate Hin|]).
  all: by apply elem_of_nil in Hin.
Qed.

(** X20: if either backoff flag of the dataset controller does not parse
    as a duration, the process ends with status 1 before any reconciler is
    registered and before the manager is started. *)
Theorem dataset_handle_exits_on_bad_backoff (enabled : string -> bool) (dataFlow : bool)
    (v : datasetapp.Vars) :
  failed (ParseDuration (datasetapp.controllerWorkqueueDefaultSyncBackoffStr v)) ∨
  failed (ParseDuration (datasetapp.controllerWorkqueueMaxSyncBackoffStr v)) →
  (handle enabled dataFlow v).2 = Exit 1 ∧
  datasetapp.registered (handle enabled dataFlow v).1 = [] ∧
  (datasetapp.CallStart ∉ (handle enabled dataFlow v).1).
Proof.
  intros H. destruct (handle enabled dataFlow v) as [t o] eqn:Hh. cbn [fst snd].
  dataset_cases Hh enabled dataFlow.
  all: try (destruct H as [[? ?]|[? ?]]; congruence).
  all: split; [reflexivity|]. all: split; [reflexivity|].
  all: intros Hin; repeat (apply elem_of_cons in Hin as [Hin|Hin]; [discriminate Hin|]).
  all: by apply elem_of_nil in Hin.
Qed.

End DatasetHandle.

(** ** The entry point of the CSI driver *)

Section CsiHandle.

Context {Manager : Type}.
Variable NewManager : config.Config -> string -> result Manager.
Variable SetupWithManager : Manager -> csiapp.RunningConfig -> option error.
Variable Start : Manager -> option error.

Local Abbreviation handle := (csiapp.handle NewManager SetupWithManager Start).

(** The running context [handle] builds from the variables. *)
Local Abbreviation contextOf v :=
  {| csiapp.NodeId := csiapp.nodeID v;
     csiapp.Endpoint := csiapp.endpoint v;
     csiapp.PruneFs := csiapp.pruneFs v;
     csiapp.PrunePath := csiapp.prunePath v;
     csiapp.KubeletConfigPath := csiapp.kubeletKubeConfigPath v |}.

(** Splits on the outcome of each call the CSI [handle] makes. *)
Ltac csi_cases env v :=
  unfold csiapp.handle;
  destruct (GetConfigOrDie_cases env)
    as [(?cfg & ?Hget & ->)|[(?err & ?Hget & ->)|(?err & ?err0 & ?Hget & ->)]]; cbn;
  destruct (decide (csiapp.pprofAddr v ≠ "")); cbn;
  [destruct (NewManager _ (csiapp.metricsAddr v)) as [?mgr|?err] eqn:?; cbn;
   [destruct (SetupWithManager _ (contextOf v)) as [?err|] eqn:?; cbn;
    [|destruct (Start _) as [?err|] eqn:?; cbn]|]
  |destruct (NewManager _ (csiapp.metricsAddr v)) as [?mgr|?err] eqn:?; cbn;
   [destruct (SetupWithManager _ (contextOf v)) as [?err|] eqn:?; cbn;
    [|destruct (Start _) as [?err|] eqn:?; cbn]|]
  | | | |].

(** Decides membership in a trace that is written out. *)
Ltac csi_not_in Hin :=
  repeat (apply elem_of_cons in Hin as [Hin|Hin]; [discriminate Hin|]);
  by apply elem_of_nil in Hin.

(** X17: the CSI driver only ever asks for a manager with the metrics
    address of the flags and a client configuration whose QPS and Burst are
    not zero: the defaults of [GetConfigWithContext] reach the manager. *)
Theorem csi_handle_manager_config (env : config.Env) (v : csiapp.Vars)
    (cfg : config.Config) (addr : string) :
  csiapp.CallNewManager cfg addr ∈ (handle env v).1 →
  config.GetConfig env = Ok cfg ∧ addr = csiapp.metricsAddr v ∧
  SFeqb (config.QPS cfg) f32_zero = false ∧ config.Burst cfg ≠ 0.
Proof.
  csi_cases env v; intros Hin.
  all: repeat (apply elem_of_cons in Hin as [Hin|Hin];
               [first [discriminate Hin | injection Hin as -> ->]|]).
  all: try by apply elem_of_nil in Hin.
  all: match goal with
       | H : config.GetConfig _ = Ok _ |- _ =>
           destruct (defaults_nonzero _ _ _ H); by repeat split
       end.
Qed.

(** X18: the CSI driver ends the process, with status 1, exactly when the
    client configuration cannot be loaded, and then without having asked
    for a manager; every later failure is a panic carrying the error of the
    call that failed, and [handle] returns exactly when the manager was
    created, set up with the flags' values and started without error. *)
Theorem csi_handle_outcomes (env : config.Env) (v : csiapp.Vars) :
  (∀ code, (handle env v).2 = csiapp.Exited code ↔ code = 1 ∧ failed (config.GetConfig env)) ∧
  (failed (config.GetConfig env) →
     ∀ cfg addr, csiapp.CallNewManager cfg addr ∉ (handle env v).1) ∧
  (∀ msg err, (handle env v).2 = csiapp.Panicked msg err →
     ∃ cfg, config.GetConfig env = Ok cfg ∧
       (NewManager cfg (csiapp.metricsAddr v) = Err err ∨
        ∃ mgr, NewManager cfg (csiapp.metricsAddr v) = Ok mgr ∧
          (SetupWithManager mgr (contextOf v) = Some err ∨
           (SetupWithManager mgr (contextOf v) = None ∧ Start mgr = Some err)))) ∧
  ((handle env v).2 = csiapp.Returned ↔
     ∃ cfg mgr, config.GetConfig env = Ok cfg ∧
       NewManager cfg (csiapp.metricsAddr v) = Ok mgr ∧
       SetupWithManager mgr (contextOf v) = None ∧ Start mgr = None).
Proof.
  csi_cases env v.
  all: split;
    [intros code; split;
       [intros H; first [discriminate H | injection H as <-; split; [done|by eexists]]
       |intros [-> [e He]]; first [done | congruence]]|].
  all: split;
    [intros [e He]; first [congruence | intros cfg' addr Hin; csi_not_in Hin]|].
  all: split;
    [intros msg e H; first [discriminate H | injection H as <- <-; eauto 10]|].
  all: split;
    [intros H; first [discriminate H | eauto 10]
    |intros (c & m & Hc & Hm & Hs & Hst); first [done | congruence]].
Qed.

(** X19: the CSI driver starts a profiling server exactly when the address
    flag is not empty, at that address, and before it loads the client
    configuration; the running context handed to the driver's setup holds
    the flags' values. *)
Theorem csi_handle_pprof_and_context (env : config.Env) (v : csiapp.Vars) :
  (∀ addr, csiapp.NewPprofServer addr ∈ (handle env v).1 ↔
     addr = csiapp.pprofAddr v ∧ addr ≠ "") ∧
  (∀ pre post addr e, (handle env v).1 = pre ++ csiapp.NewPprofServer addr :: post →
     e ∈ pre → e = csiapp.LogVersion) ∧
  (∀ ctx, csiapp.CallSetupWithManager ctx ∈ (handle env v).1 → ctx = contextOf v).
Proof.
  csi_cases env v.
  all: split; [intros addr; split;
                 [intros Hin;
                  repeat (apply elem_of_cons in Hin as [Hin|Hin];
                          [first [discriminate Hin | by injection Hin as ->]|]);
                  by apply elem_of_nil in Hin
                 |intros [-> ?]; first [done | apply list_elem_of_further, list_elem_of_here]]|].
  all: split; [intros pre post addr e H He;
               repeat (destruct pre as [|? pre]; simplify_eq/=);
               repeat (apply elem_of_cons in He as [->|He]; [done|]);
               by apply elem_of_nil in He|].
  all: intros ctx Hin;
    repeat (apply elem_of_cons in Hin as [Hin|Hin];
            [first [discriminate Hin | by injection Hin as ->]|]);
    by apply elem_of_nil in Hin.
Qed.

End CsiHandle.

(** ** The further properties at work *)

Lemma loadConfig_flag_first_witness :
  config.loadConfig samples.envFlag "" =
  Ok {| config.Host := "https://10.0.0.1:6443";
        config.QPS := S754_finite false 10485760 (-21); config.Burst := 7 |}.
Proof.
  refine (eq_trans (proj1 (loadConfig_flag_first samples.envFlag "" _)) _);
    [by cbn | reflexivity].
Defined.

Lemma loadConfig_in_cluster_witness :
  config.loadConfig samples.envInCluster "" =
  Ok {| config.Host := "https://kubernetes.default.svc"; config.QPS := f32_zero;
        config.Burst := 0 |}.
Proof.
  by refine (proj1 (loadConfig_in_cluster samples.envInCluster "" _) _ _ _).
Defined.

Lemma loadConfig_default_rules_witness :
  config.loadConfig samples.envNoHome "" =
    Err (withMessage (errorString "user: unknown userid 1000") "could not get current user") ∧
  config.loadConfig samples.envUserHome "" =
    Ok {| config.Host := "https://10.0.0.1:6443"; config.QPS := f32_zero; config.Burst := 0 |}.
Proof.
  split.
  - refine (proj1 (proj2 (loadConfig_default_rules samples.envNoHome "" _ _)) _ _ _); try done.
    right. by eexists.
  - destruct (proj2 (proj2 (loadConfig_default_rules samples.envUserHome "" eq_refl
                              (or_intror (ex_intro _ _ eq_refl))))
                {| config.HomeDir := "/home/fluid/" |} eq_refl eq_refl)
      as (rules & -> & _ & Hp & _).
    cbn. by rewrite Hp.
Defined.

Lemma GetConfigWithContext_never_zero_witness :
  ∃ cfg, config.GetConfigWithContext samples.envInCluster "" = Ok cfg ∧
    SFeqb (config.QPS cfg) f32_zero = false ∧ config.Burst cfg ≠ 0.
Proof.
  eexists. split; [reflexivity|].
  by apply (GetConfigWithContext_never_zero samples.envInCluster "").
Defined.

Lemma GetConfigWithContext_idempotent_witness :
  config.GetConfigWithContext samples.envReloaded "" =
  Ok {| config.Host := "https://kubernetes.default.svc"; config.QPS := f32_20;
        config.Burst := 30 |}.
Proof.
  apply (GetConfigWithContext_idempotent samples.envInCluster samples.envReloaded "" "");
    reflexivity.
Defined.

Lemma GetConfigOrDie_outcomes_witness :
  (config.GetConfigOrDie samples.envNoHome).1 =
    [config.LogError (errorString "not in cluster") "unable to load in-cluster config";
     config.LogError
       (withMessage (errorString "user: unknown userid 1000") "could not get current user")
       "unable to get kubeconfig"] ∧
  ∃ cfg, (config.GetConfigOrDie samples.envInCluster).2 = Continue cfg ∧ config.Burst cfg ≠ 0.
Proof.
  split.
  - destruct (proj1 (GetConfigOrDie_outcomes samples.envNoHome) 1 eq_refl)
      as (_ & err & Herr & ->).
    injection Herr as <-. reflexivity.
  - eexists. split; [reflexivity|].
    by eapply (GetConfigOrDie_outcomes samples.envInCluster).
Defined.

Lemma RegisterFlags_safe_witness :
  ∃ reg, config.RegisterFlags samples.commandLineTaken None "" true = Some reg ∧
    config.kubeconfigVar reg = "/etc/other.conf" ∧
    config.Lookup (config.flagSet reg) "v" = Some "2".
Proof.
  destruct (RegisterFlags_safe samples.commandLineTaken None "" true)
    as (reg & Hreg & _ & Hkeep & _ & Hthere & _).
  exists reg. split; [done|]. split.
  - by eapply Hthere.
  - by apply Hkeep.
Defined.

Lemma RegisterFlags_idempotent_witness :
  ∃ reg, config.RegisterFlags {| config.formal := ∅ |} None "" false = Some reg ∧
    config.RegisterFlags (config.flagSet reg) None (config.kubeconfigVar reg)
      (config.boundVar reg) = Some reg.
Proof.
  eexists. split; [reflexivity|].
  by eapply (RegisterFlags_idempotent {| config.formal := ∅ |} None "" false).
Defined.

Lemma handle_exit_status_witness :
  ∃ err msg, last (samples.handleSample samples.badBackoff).1 = Some (app.LogError err msg).
Proof.
  assert ((samples.handleSample samples.badBackoff).2 = Exit 1) as H by reflexivity.
  unfold samples.handleSample in *.
  apply (handle_exit_status (Engine := unit) (Client := unit) (Scheme := unit)
           (Manager := unit)) in H as [_ [Hno|Hlog]]; [discriminate Hno | exact Hlog].
Defined.

Lemma handle_starts_iff_ready_witness :
  app.CallStart ∈ (samples.handleSample app.init).1 ∧
  (samples.handleSample app.init).2 = Continue tt.
Proof.
  unfold samples.handleSample. split.
  - eapply (handle_starts_iff_ready (Engine := unit) (Client := unit) (Scheme := unit)
              (Manager := unit)).
    exists tt. by eexists _, _, _, _.
  - eapply (handle_starts_iff_ready (Engine := unit) (Client := unit) (Scheme := unit)
              (Manager := unit)).
    exists tt. split; [by eexists _, _, _, _|done].
Defined.

Lemma handle_call_order_witness :
  ∃ pr policy,
    app.CallSetupRuntimePortAllocator pr policy ∈ take 9 (samples.handleSample app.init).1.
Proof.
  assert ((samples.handleSample app.init).1 =
          take 9 (samples.handleSample app.init).1 ++
            app.CallStart :: drop 10 (samples.handleSample app.init).1) as H by reflexivity.
  unfold samples.handleSample in *.
  by eapply (proj2 (proj2 (handle_call_order (Engine := unit) (Client := unit)
                             (Scheme := unit) (Manager := unit)
                             _ _ _ _ _ _ _ _ _ _ _ _ _))) in H as [H _].
Defined.

Lemma handle_port_allocator_arguments_witness :
  samples.parsePortRange (app.portRange app.init) =
    Ok {| portallocator.Base := 20000; portallocator.Size := 5001 |} ∧
  "random" = app.portAllocatePolicy app.init.
Proof.
  assert (app.CallSetupRuntimePortAllocator
            {| portallocator.Base := 20000; portallocator.Size := 5001 |} "random"
            ∈ (samples.handleSample app.init).1) as Hin.
  { vm_compute. repeat first [apply list_elem_of_here | apply list_elem_of_further]. }
  unfold samples.handleSample in Hin.
  by eapply (handle_port_allocator_arguments (Engine := unit) (Client := unit)
               (Scheme := unit) (Manager := unit)) in Hin.
Defined.

Lemma flags_independent_witness :
  app.ParseFlags app.init [("runtime-workers", app.IntValue 5);
                           ("workqueue-qps", app.IntValue 20)] =
  app.ParseFlags app.init [("workqueue-qps", app.IntValue 20);
                           ("runtime-workers", app.IntValue 5)].
Proof.
  destruct flags_independent as (_ & _ & Hcomm).
  pose proof (Hcomm (app.IntVar (λ x '(app.mkVars a b c d e f g h i j k l m n),
                                   app.mkVars a b c d e x g h i j k l m n)
                       "runtime-workers" 3)
                    (app.IntVar (λ x '(app.mkVars a b c d e f g h i j k l m n),
                                   app.mkVars a b c d e f g h i j k l x n)
                       "workqueue-qps" 10)
                    (app.IntValue 5) (app.IntValue 20) app.init) as H.
  by vm_compute.
Defined.

Lemma Reconcile_load_failure_frame_witness :
  (alluxio.Reconcile samples.constants samples.getRuntimeTimeout samples.evictAll
     samples.reconciler samples.idA).2 = samples.reconciler.
Proof.
  by apply (Reconcile_load_failure_frame samples.constants samples.getRuntimeTimeout
              samples.evictAll samples.evictAll samples.reconciler samples.idA _ eq_refl).
Defined.

Lemma dataset_handle_shared_options_witness :
  ∃ d1 d2,
    samples.parseDuration "5ms" = Ok d1 ∧ samples.parseDuration "1000s" = Ok d2 ∧
    controllers.NewFluidControllerRateLimiter (5 * Millisecond) (1000 * Second) 10 100 =
    controllers.NewFluidControllerRateLimiter d1 d2 10 100.
Proof.
  assert (datasetapp.CallSetupWithManager datasetapp.DataProcessReconciler
            {| controller.MaxConcurrentReconciles := 3;
               controller.RateLimiter :=
                 controllers.NewFluidControllerRateLimiter (5 * Millisecond) (1000 * Second)
                   10 100 |}
            ∈ (samples.datasetSample samples.datasetVars).1) as Hin.
  { vm_compute. repeat first [apply list_elem_of_here | apply list_elem_of_further]. }
  unfold samples.datasetSample in Hin.
  eapply (dataset_handle_shared_options (Manager := unit)) in Hin
    as (d1 & d2 & H1 & H2 & Hopt).
  exists d1, d2. split; [exact H1|]. split; [exact H2|].
  exact (f_equal controller.RateLimiter Hopt).
Defined.

Lemma dataset_handle_registrations_witness :
  datasetapp.registered (samples.datasetSample samples.datasetVars).1 =
  [datasetapp.DatasetReconciler (5 * Second); datasetapp.DataLoadReconciler;
   datasetapp.DataProcessReconciler].
Proof.
  unfold samples.datasetSample.
  refine (eq_trans (proj1 (proj2 (dataset_handle_registrations (Manager := unit)
                                    _ _ _ _ _ _ _ _ _ _ _)) _) _).
  - repeat first [apply list_elem_of_here | apply list_elem_of_further].
  - reflexivity.
Defined.

Lemma dataset_handle_exits_on_bad_backoff_witness :
  (samples.datasetSample samples.datasetBadBackoff).2 = Exit 1 ∧
  datasetapp.registered (samples.datasetSample samples.datasetBadBackoff).1 = [].
Proof.
  unfold samples.datasetSample.
  edestruct (dataset_handle_exits_on_bad_backoff (Manager := unit)) as (Hexit & Hreg & _);
    [|split; [exact Hexit|exact Hreg]].
  left. by eexists.
Defined.

Lemma csi_handle_manager_config_witness :
  config.GetConfig samples.envInCluster =
    Ok {| config.Host := "https://kubernetes.default.svc"; config.QPS := f32_20;
          config.Burst := 30 |} ∧
  ":8080" = csiapp.metricsAddr samples.csiVars.
Proof.
  assert (csiapp.CallNewManager
            {| config.Host := "https://kubernetes.default.svc"; config.QPS := f32_20;
               config.Burst := 30 |} ":8080"
            ∈ (samples.csiSample samples.envInCluster).1) as Hin.
  { vm_compute. repeat first [apply list_elem_of_here | apply list_elem_of_further]. }
  unfold samples.csiSample in Hin.
  eapply (csi_handle_manager_config (Manager := unit)) in Hin as (Hg & Ha & _).
  by split.
Defined.

Lemma csi_handle_outcomes_witness :
  (samples.csiSample samples.envInCluster).2 = csiapp.Returned ∧
  (samples.csiSample samples.envNoHome).2 = csiapp.Exited 1.
Proof.
  unfold samples.csiSample. split.
  - eapply (csi_handle_outcomes (Manager := unit)). by eexists _, tt.
  - eapply (csi_handle_outcomes (Manager := unit)). split; [done|by eexists].
Defined.

Lemma csi_handle_pprof_and_context_witness :
  csiapp.NewPprofServer ":6060" ∉ (samples.csiSample samples.envInCluster).1.
Proof.
  unfold samples.csiSample. intros Hin.
  eapply (csi_handle_pprof_and_context (Manager := unit)) in Hin as [Ha _].
  discriminate Ha.
Defined.
